(** * docqa-app: the Streamlit document question-answering script (app.py)

    A shallow embedding of [app.py].  The script is glue code around three
    external collaborators (Streamlit, PyPDF2 and the Anthropic client), so
    the embedding has three layers:

    - [Env]: what the outside world answers during one run of the script
      (secrets store, process environment, widget values, the behaviour of
      the completion endpoint);
    - [World]: what the script mutates ([st.session_state]) together with
      the ordered trace of everything it emits or calls;
    - a small state-and-exception monad [M] in which the four Python
      functions and the [__main__] block are written statement by
      statement. *)

From Stdlib Require Import String Ascii List ZArith Lia Bool.
From Stdlib Require Import DecimalString.
From stdpp Require Import base option strings gmap.

Import ListNotations.
Local Open Scope string_scope.
Local Open Scope list_scope.

(** ** Python values used by the script

    A Python [str] is modelled by [string], one character per code point,
    for code points below 256.  The labels of the user interface are
    carried as the bytes of the source file and are only ever compared for
    equality. *)

Module Py.

(** Instances of Python's [Exception] class: the class named by both
    [except Exception as e] handlers.  [str(e)] is [exn_msg]. *)
Record exn : Type := Exn { exn_type : string; exn_msg : string }.

Definition str (e : exn) : string := exn_msg e.

(** How a Python call ends.  [Stop] is the script-control signal raised
    by [st.stop()]; it is not an [Exception], so no handler of the script
    catches it. *)
Inductive outcome (A : Type) : Type :=
| Ret (a : A)
| Raise (e : exn)
| Stop.
Arguments Ret {A} a.
Arguments Raise {A} e.
Arguments Stop {A}.

(** Truth value of a [str]: only the empty string is falsy. *)
Definition truthy (s : string) : bool :=
  match s with
  | EmptyString => false
  | String _ _ => true
  end.

(** A Python object, as far as the script can tell objects apart: a
    [str]; an [int]; a [float], by its [str()] text and its truth value;
    any other object ([bool], [list], Streamlit's [AttrDict], a date), by
    its class name and its truth value. *)
Inductive object : Type :=
| PyStr (s : string)
| PyInt (n : Z)
| PyFloat (text : string) (nonzero : bool)
| PyOther (class_name : string) (truth : bool).

(** Truth value of an object: the empty [str], the [int] 0 and the
    [float] 0.0 are falsy. *)
Definition truthy_obj (o : object) : bool :=
  match o with
  | PyStr s => truthy s
  | PyInt n => negb (n =? 0)%Z
  | PyFloat _ nonzero => nonzero
  | PyOther _ truth => truth
  end.

(** Truth value of an object or [None]. *)
Definition truthy_opt (o : option object) : bool :=
  match o with
  | None => false
  | Some v => truthy_obj v
  end.

(** [str(n)] for an [int]. *)
Definition str_of_int (n : Z) : string := NilZero.string_of_int (Z.to_int n).

(** [len(s)]. *)
Definition len (s : string) : nat := String.length s.

(** [str.isspace] on one character, for code points below 256:
    TAB, LF, VT, FF, CR, FS, GS, RS, US, SPACE, NEL and NBSP. *)
Definition is_space (c : ascii) : bool :=
  let n := nat_of_ascii c in
  (((9 <=? n) && (n <=? 13)) || ((28 <=? n) && (n <=? 32))
   || (n =? 133) || (n =? 160))%nat.

(** [s.split()] with no separator: maximal runs of non-whitespace
    characters, in order; no empty words.  [cur] is the word being read,
    in reverse. *)
Fixpoint split_aux (s : string) (cur : list ascii) : list string :=
  let flush (k : list string) :=
    match cur with
    | [] => k
    | _ :: _ => string_of_list_ascii (rev cur) :: k
    end in
  match s with
  | EmptyString => flush []
  | String c s' =>
      if is_space c then flush (split_aux s' [])
      else split_aux s' (c :: cur)
  end.

Definition split (s : string) : list string := split_aux s [].

(** [s[:n]]. *)
Definition slice_to (n : nat) (s : string) : string := substring 0 n s.

(** [str(n)] for a non-negative [int], as formatted inside an f-string. *)
Definition str_of_nat (n : nat) : string :=
  NilEmpty.string_of_uint (Nat.to_uint n).

End Py.

Export Py.

(** ** The outside world *)

(** An uploaded file as PyPDF2 sees it.  [PyPDF2.PdfReader(f)] either
    raises (the stream is not a PDF) or gives the pages in document order;
    [page.extract_text()] either raises or gives that page's text. *)
Inductive answer (A : Type) : Type :=
| Returns (a : A)
| Throws (e : exn).
Arguments Returns {A} a.
Arguments Throws {A} e.

Record Page : Type := { extract_text : answer string }.

Record UploadedFile : Type := {
  name : string;
  PdfReader : answer (list Page)
}.

(** The Anthropic client and what goes over the wire. *)
Record Client : Type := { api_key : option object }.

Record Message : Type := { role : string; content : string }.

Record Request : Type := {
  model : string;
  max_tokens : Z;
  messages : list Message
}.

(** A content segment of a response: a text block has a [.text]
    attribute, any other block type (named by its class) has not. *)
Inductive ContentBlock : Type :=
| TextBlock (text : string)
| OtherBlock (class_name : string).

Record Response : Type := { response_content : list ContentBlock }.

(** Streamlit's secrets store: either it cannot be read at all (no
    [secrets.toml], or one that does not parse) and every access raises,
    or it holds the top-level entries of the file, of any TOML type. *)
Inductive secrets_store : Type :=
| NoSecrets (e : exn)
| Secrets (top : gmap string object).

(** Everything the script asks of its collaborators during one run. *)
Record Env : Type := {
  (** [st.secrets] *)
  secrets : secrets_store;
  (** the [KeyError] of [st.secrets[k]] for a key the store lacks *)
  secrets_key_error : string -> exn;
  (** [os.environ] when the script starts, after
      [load_dotenv("config.env")] at import time and before [st.secrets]
      is read *)
  environ : gmap string string;
  (** [Anthropic(api_key=k)] *)
  Anthropic : option object -> answer Client;
  (** [client.messages.create(...)] *)
  messages_create : Client -> Request -> answer Response;
  (** value of the [st.file_uploader] widget *)
  file_uploader_value : option UploadedFile;
  (** value of the [st.text_input] widget *)
  text_input_value : string;
  (** value of the [st.button] widget: pressed in this run or not *)
  button_value : bool
}.

(** *** Streamlit's secrets and the process environment

    Reading [st.secrets] has an effect outside the store: when Streamlit
    parses the secrets file it copies every top-level entry whose value is
    a [str], an [int] or a [float] into [os.environ], as [str(value)],
    over whatever the variable held.  A store that cannot be read copies
    nothing. *)

(** [st.secrets[k]]: the stored object, or an exception. *)
Definition secrets_getitem (env : Env) (k : string) : answer object :=
  match secrets env with
  | NoSecrets e => Throws e
  | Secrets top =>
      match top !! k with
      | Some v => Returns v
      | None => Throws (secrets_key_error env k)
      end
  end.

(** What Streamlit writes into [os.environ] for a top-level value: its
    [str()] when [type(v)] is [str], [int] or [float], nothing otherwise. *)
Definition exported (v : object) : option string :=
  match v with
  | PyStr s => Some s
  | PyInt n => Some (str_of_int n)
  | PyFloat text _ => Some text
  | PyOther _ _ => None
  end.

(** [os.environ] once [st.secrets] has been accessed: the exported
    entries lie over the variables the script started with. *)
Definition os_environ (env : Env) : gmap string string :=
  match secrets env with
  | NoSecrets _ => environ env
  | Secrets top => omap exported top ∪ environ env
  end.

(** ** What the script does to the world *)

(** Calls into Streamlit's display API, with their arguments. *)
Inductive st_call : Type :=
| st_title (body : string)
| st_write (body : string)
| st_spinner (text : string)
| st_success (body : string)
| st_info (body : string)
| st_warning (body : string)
| st_error (body : string)
| st_divider
| st_subheader (body : string)
| st_file_uploader (label : string)
| st_text_input (label : string)
| st_button (label : string)
| st_expander (label : string)
| st_text_area (label value : string).

(** The trace records, in program order, every display call, every
    request handed to the completion endpoint, and the entry into each of
    the script's own functions. *)
Inductive event : Type :=
| UI (c : st_call)
| Create (c : Client) (r : Request)
| Enter_get_api_key
| Enter_extract_text_from_pdf (file_name : string)
| Enter_query_claude (document_text question : string)
| Enter_main.

Record World : Type := {
  session_state : gmap string string;
  trace : list event
}.

(** ** The monad of script statements *)

Definition M (A : Type) : Type := World -> outcome A * World.

Definition ret {A} (a : A) : M A := fun w => (Ret a, w).

Definition bind {A B} (m : M A) (k : A -> M B) : M B :=
  fun w =>
    match m w with
    | (Ret a, w') => k a w'
    | (Raise e, w') => (Raise e, w')
    | (Stop, w') => (Stop, w')
    end.

Definition raise {A} (e : exn) : M A := fun w => (Raise e, w).

(** [st.stop()] *)
Definition st_stop {A} : M A := fun w => (Stop, w).

(** [try: m except Exception as e: h e] *)
Definition try_except {A} (m : M A) (h : exn -> M A) : M A :=
  fun w =>
    match m w with
    | (Raise e, w') => h e w'
    | r => r
    end.

Declare Scope script_scope.
Delimit Scope script_scope with script.
Bind Scope script_scope with M.

Notation "x <- c ;; k" := (bind c (fun x => k))
  (at level 20, c at level 99, k at level 200, only parsing) : script_scope.
Notation "c ;; k" := (bind c (fun _ => k))
  (at level 100, k at level 200, only parsing, right associativity) : script_scope.

Local Open Scope script_scope.

Definition emit (e : event) : M unit :=
  fun w => (Ret tt, {| session_state := session_state w; trace := trace w ++ [e] |}).

Definition st (c : st_call) : M unit := emit (UI c).

(** The result of a call into a library. *)
Definition call {A} (r : answer A) : M A :=
  match r with
  | Returns a => ret a
  | Throws e => raise e
  end.

(** [k in st.session_state] *)
Definition session_contains (k : string) : M bool :=
  fun w => (Ret (bool_decide (is_Some (session_state w !! k))), w).

(** [st.session_state.k = v] *)
Definition session_set (k v : string) : M unit :=
  fun w => (Ret tt, {| session_state := <[k := v]> (session_state w); trace := trace w |}).

(** [st.session_state.k]; an absent key is an [AttributeError]. *)
Definition session_get (k : string) : M string :=
  fun w =>
    match session_state w !! k with
    | Some v => (Ret v, w)
    | None => (Raise (Exn "AttributeError" ("st.session_state has no attribute " +:+ k)), w)
    end.

(** [for x in xs: acc = body acc x], threading the accumulator. *)
Fixpoint for_each {A B} (xs : list A) (acc : B) (body : B -> A -> M B) : M B :=
  match xs with
  | [] => ret acc
  | x :: xs' => acc' <- body acc x ;; for_each xs' acc' body
  end.

(** The newline character, Python's ["\n"]. *)
Definition LF : string := String (ascii_of_nat 10) EmptyString.

(** ** The script *)

Section Script.

Variable env : Env.

(** Widgets return the value the user gave them in this run. *)
Definition file_uploader (label : string) : M (option UploadedFile) :=
  st (st_file_uploader label) ;; ret (file_uploader_value env).

Definition text_input (label : string) : M string :=
  st (st_text_input label) ;; ret (text_input_value env).

Definition button (label : string) : M bool :=
  st (st_button label) ;; ret (button_value env).

(** [os.getenv(k)].  The script's only call, line 21, comes after the
    access to [st.secrets] of line 14, so it reads the environment that
    access has left. *)
Definition os_getenv (k : string) : option object := PyStr <$> os_environ env !! k.

(** [get_api_key()], lines 11-25.  The [try] block either returns from
    the function ([Some]) or falls through ([None]). *)
Definition get_api_key : M (option object) :=
  emit Enter_get_api_key ;;
  returned <- try_except
    (api_key <- call (secrets_getitem env "ANTHROPIC_API_KEY") ;;
     if truthy_obj api_key then ret (Some (Some api_key)) else ret None)
    (fun e => st (st_write ("Debug: Secrets error: " +:+ str e)) ;; ret None) ;;
  match returned with
  | Some api_key => ret api_key
  | None =>
      let env_key := os_getenv "ANTHROPIC_API_KEY" in
      if truthy_opt env_key then ret env_key else ret None
  end.

(** [extract_text_from_pdf(pdf_file)], lines 27-33. *)
Definition extract_text_from_pdf (pdf_file : UploadedFile) : M string :=
  emit (Enter_extract_text_from_pdf (name pdf_file)) ;;
  pages <- call (PdfReader pdf_file) ;;
  for_each pages ""
    (fun text page => t <- call (extract_text page) ;; ret (text +:+ (t +:+ LF))).

(** The f-string of lines 40-47. *)
Definition prompt (document_text question : string) : string :=
  "Based on the following document content, please answer the question. If the answer cannot be found in the document, please say so."
  +:+ LF +:+ LF +:+ "Document content:" +:+ LF +:+ document_text
  +:+ LF +:+ LF +:+ "Question: " +:+ question
  +:+ LF +:+ LF +:+ "Answer:".

(** The keyword arguments of [client.messages.create], lines 49-53. *)
Definition request (document_text question : string) : Request :=
  {| model := "claude-3-haiku-20240307";
     max_tokens := 1000;
     messages := [ {| role := "user"; content := prompt document_text question |} ] |}.

(** [xs[0]] *)
Definition item0 {A} (xs : list A) : M A :=
  match xs with
  | x :: _ => ret x
  | [] => raise (Exn "IndexError" "list index out of range")
  end.

(** [block.text] *)
Definition dot_text (block : ContentBlock) : M string :=
  match block with
  | TextBlock t => ret t
  | OtherBlock c =>
      raise (Exn "AttributeError" ("'" +:+ c +:+ "' object has no attribute 'text'"))
  end.

(** The body of the [try] block of [query_claude], lines 38-55. *)
Definition query_claude_try (document_text question : string) : M string :=
  key <- get_api_key ;;
  client <- call (Anthropic env key) ;;
  let req := request document_text question in
  emit (Create client req) ;;
  response <- call (messages_create env client req) ;;
  block <- item0 (response_content response) ;;
  dot_text block.

(** [query_claude(document_text, question)], lines 35-57. *)
Definition query_claude (document_text question : string) : M string :=
  emit (Enter_query_claude document_text question) ;;
  try_except
    (query_claude_try document_text question)
    (fun e => ret ("Error querying Claude: " +:+ str e)).

(** Lines 63-67 of [main]: default the two session keys. *)
Definition init_session : M unit :=
  has_text <- session_contains "document_text" ;;
  (if negb has_text then session_set "document_text" "" else ret tt) ;;
  has_name <- session_contains "document_name" ;;
  (if negb has_name then session_set "document_name" "" else ret tt).

(** Lines 72-88 of [main]: the body of [if uploaded_file is not None]. *)
Definition on_upload (uploaded_file : UploadedFile) : M unit :=
  st (st_spinner "Processing document...") ;;
  document_text <- extract_text_from_pdf uploaded_file ;;
  session_set "document_text" document_text ;;
  session_set "document_name" (name uploaded_file) ;;
  st (st_success ("✅ Document '" +:+ name uploaded_file +:+ "' processed successfully!")) ;;
  let word_count := length (split document_text) in
  let char_count := len document_text in
  st (st_info ("📊 Document stats: " +:+ str_of_nat word_count +:+ " words, "
               +:+ str_of_nat char_count +:+ " characters")) ;;
  st (st_expander "📖 Document Preview") ;;
  st (st_text_area "First 500 characters:" (slice_to 500 document_text)).

(** Lines 98-109 of [main]: the body of [if st.button(...)], the handler
    of the question-asked event. *)
Definition on_ask (question : string) : M unit :=
  if truthy question then
    st (st_spinner "Getting answer from Claude...") ;;
    try_except
      (document_text <- session_get "document_text" ;;
       answer <- query_claude document_text question ;;
       st (st_success "🎯 Answer:") ;;
       st (st_write answer))
      (fun e =>
         st (st_error ("❌ Error: " +:+ str e)) ;;
         st (st_info "💡 Make sure you have set your ANTHROPIC_API_KEY in the .env file"))
  else
    st (st_warning "Please enter a question!").

(** Lines 91-111 of [main]: the question-and-answer section. *)
Definition qa_section : M unit :=
  document_text <- session_get "document_text" ;;
  if truthy document_text then
    st st_divider ;;
    st (st_subheader "🤔 Ask Questions") ;;
    question <- text_input "What would you like to know about the document?" ;;
    clicked <- button "Ask Claude" ;;
    if clicked then on_ask question else ret tt
  else
    st (st_info "👆 Please upload a PDF document to start asking questions").

(** [main()], lines 59-111. *)
Definition main : M unit :=
  emit Enter_main ;;
  st (st_title "📄 Document Q&A App") ;;
  st (st_write "Upload a PDF document and ask questions about its content!") ;;
  init_session ;;
  uploaded_file <- file_uploader "Choose a PDF file" ;;
  match uploaded_file with
  | Some f => on_upload f
  | None => ret tt
  end ;;
  qa_section.

(** The [if __name__ == "__main__":] block, lines 113-119. *)
Definition script : M unit :=
  key <- get_api_key ;;
  (if negb (truthy_opt key) then
     st (st_error "❌ ANTHROPIC_API_KEY not found. Please set it in your .env file or Streamlit secrets") ;;
     st_stop
   else ret tt) ;;
  main.

End Script.

(** * Specification vocabulary

    Names for the things the properties talk about.  Nothing here is run
    by the script; every definition is either a reading of a trace, a pure
    function that a lemma below relates to the script, or a sample
    environment. *)

(** ** Runs and traces *)

(** The world after [w] has emitted [evs]; the session is untouched. *)
Definition after (w : World) (evs : list event) : World :=
  {| session_state := session_state w; trace := trace w ++ evs |}.

(** Every event [m] adds to the trace satisfies [P]. *)
Definition emits {A} (P : event -> Prop) (m : M A) : Prop :=
  forall w, exists evs, trace (snd (m w)) = trace w ++ evs /\ Forall P evs.

(** [m] leaves [st.session_state] as it found it. *)
Definition keeps_session {A} (m : M A) : Prop :=
  forall w, session_state (snd (m w)) = session_state w.

Definition outcome_of {A} (r : answer A) : outcome A :=
  match r with
  | Returns a => Ret a
  | Throws e => Raise e
  end.

(** The requests among a list of events, in order. *)
Fixpoint requests_of (evs : list event) : list (Client * Request) :=
  match evs with
  | [] => []
  | Create c r :: rest => (c, r) :: requests_of rest
  | _ :: rest => requests_of rest
  end.

(** Events of the question-and-answer section: its two input widgets, the
    entry into [query_claude], and requests to the endpoint. *)
Definition is_qa_event (e : event) : bool :=
  match e with
  | UI (st_text_input _) | UI (st_button _) => true
  | Enter_query_claude _ _ => true
  | Create _ _ => true
  | _ => false
  end.

Definition is_enter_query_claude (e : event) : bool :=
  match e with
  | Enter_query_claude _ _ => true
  | _ => false
  end.

(** ** Credential resolution *)

(** The name both sources are asked for. *)
Definition KEY : string := "ANTHROPIC_API_KEY".

(** What each source has to offer, in priority order: the object the
    secrets store holds under the key (nothing when the access raises),
    then the environment variable as the access has left it. *)
Definition secrets_value (env : Env) : option object :=
  match secrets_getitem env KEY with
  | Returns v => Some v
  | Throws _ => None
  end.

Definition credential_sources (env : Env) : list (option object) :=
  [secrets_value env; os_getenv env KEY].

(** The resolver as the specification words it: the first source, in
    order, that yields a value Python takes for true; not found
    otherwise. *)
Fixpoint first_truthy (sources : list (option object)) : option object :=
  match sources with
  | [] => None
  | o :: rest => if truthy_opt o then o else first_truthy rest
  end.

(** The credential [query_claude] hands to the client. *)
Definition resolved_key (env : Env) : option object :=
  first_truthy (credential_sources env).

(** Whether an object is a [str]. *)
Definition is_str (o : object) : bool :=
  match o with
  | PyStr _ => true
  | _ => false
  end.

(** The diagnostic written when the secrets store raises. *)
Definition secrets_debug (env : Env) : list event :=
  match secrets_getitem env KEY with
  | Returns _ => []
  | Throws e => [UI (st_write ("Debug: Secrets error: " +:+ str e))]
  end.

Definition missing_key_notice : event :=
  UI (st_error "❌ ANTHROPIC_API_KEY not found. Please set it in your .env file or Streamlit secrets").

(** ** Text extraction *)

(** The loop of lines 31-32 read as a function of the pages alone. *)
Fixpoint pages_text (pages : list Page) (text : string) : answer string :=
  match pages with
  | [] => Returns text
  | page :: rest =>
      match extract_text page with
      | Returns t => pages_text rest (text +:+ (t +:+ LF))
      | Throws e => Throws e
      end
  end.

(** What extraction makes of a file: the text, or the exception of the
    parser or of the first page that fails. *)
Definition extraction (f : UploadedFile) : answer string :=
  match PdfReader f with
  | Returns pages => pages_text pages ""
  | Throws e => Throws e
  end.

(** The specification's wording of the extractor's result: the page texts
    in page order with one newline between neighbours. *)
Definition newline_separated (ts : list string) : string := String.concat LF ts.

(** [n] newlines and nothing else. *)
Fixpoint newlines (n : nat) : string :=
  match n with
  | 0 => ""
  | S n' => LF +:+ newlines n'
  end.

(** Every page's text followed by a newline. *)
Fixpoint page_lines (ts : list string) : string :=
  match ts with
  | [] => ""
  | t :: rest => t +:+ LF +:+ page_lines rest
  end.

(** ** The answer service *)

(** The string the handler of line 57 returns for [e]. *)
Definition error_answer (e : exn) : string := "Error querying Claude: " +:+ str e.

(** What [query_claude] emits before it builds the client. *)
Definition query_prelude (env : Env) (document_text question : string) : list event :=
  Enter_query_claude document_text question :: Enter_get_api_key :: secrets_debug env.

(** The fixed text around the two interpolated fields of the prompt. *)
Definition prompt_head : string :=
  "Based on the following document content, please answer the question. If the answer cannot be found in the document, please say so."
  +:+ LF +:+ LF +:+ "Document content:" +:+ LF.

Definition prompt_mid : string := LF +:+ LF +:+ "Question: ".

Definition prompt_tail : string := LF +:+ LF +:+ "Answer:".

(** ** The session orchestrator *)

(** [if k not in st.session_state: st.session_state.k = ""] *)
Definition with_default (k : string) (s : gmap string string) : gmap string string :=
  if bool_decide (is_Some (s !! k)) then s else <[k := ""]> s.

(** The session after lines 63-67. *)
Definition initialised (s : gmap string string) : gmap string string :=
  with_default "document_name" (with_default "document_text" s).

(** The statements of [main] before the question-and-answer section,
    lines 60-88. *)
Definition before_qa (env : Env) : M unit :=
  emit Enter_main ;;
  st (st_title "📄 Document Q&A App") ;;
  st (st_write "Upload a PDF document and ask questions about its content!") ;;
  init_session ;;
  uploaded_file <- file_uploader env "Choose a PDF file" ;;
  match uploaded_file with
  | Some f => on_upload f
  | None => ret tt
  end.

(** What [main] shows before it looks at the uploaded file. *)
Definition main_header : list event :=
  [ Enter_main;
    UI (st_title "📄 Document Q&A App");
    UI (st_write "Upload a PDF document and ask questions about its content!");
    UI (st_file_uploader "Choose a PDF file") ].

(** The world in which the upload handler, if any, starts. *)
Definition at_upload (w : World) : World :=
  {| session_state := initialised (session_state w);
     trace := trace w ++ main_header |}.

(** What a successful upload of [f] with text [t] shows, lines 73-88. *)
Definition upload_events (f : UploadedFile) (t : string) : list event :=
  [ UI (st_spinner "Processing document...");
    Enter_extract_text_from_pdf (name f);
    UI (st_success ("✅ Document '" +:+ name f +:+ "' processed successfully!"));
    UI (st_info ("📊 Document stats: " +:+ str_of_nat (length (split t)) +:+ " words, "
                 +:+ str_of_nat (len t) +:+ " characters"));
    UI (st_expander "📖 Document Preview");
    UI (st_text_area "First 500 characters:" (slice_to 500 t)) ].

(** The form of the question-and-answer section, lines 92-98. *)
Definition qa_form : list event :=
  [ UI st_divider;
    UI (st_subheader "🤔 Ask Questions");
    UI (st_text_input "What would you like to know about the document?");
    UI (st_button "Ask Claude") ].

Definition upload_prompt : event :=
  UI (st_info "👆 Please upload a PDF document to start asking questions").

Definition omission_notice : event := UI (st_warning "Please enter a question!").

(** A question that is empty or consists only of whitespace. *)
Definition blank (q : string) : bool := forallb is_space (list_ascii_of_string q).

(** ** Sample documents, environments and worlds *)

Definition text_page (t : string) : Page := {| extract_text := Returns t |}.

(** The two-page document of the specification's scenario, under any file
    name. *)
Definition hello_world (file_name : string) : UploadedFile :=
  {| name := file_name;
     PdfReader := Returns [text_page "Hello"; text_page "World"] |}.

Definition hello_world_pdf : UploadedFile := hello_world "hello.pdf".

Definition hello_world_text : string := "Hello" +:+ LF +:+ "World" +:+ LF.

Definition sky_pdf : UploadedFile :=
  {| name := "sky.pdf"; PdfReader := Returns [text_page "The sky is blue."] |}.

(** A PDF without pages. *)
Definition empty_pdf : UploadedFile := {| name := "empty.pdf"; PdfReader := Returns [] |}.

(** A local development setup: Streamlit finds no secrets file, the key
    comes from the process environment, and the endpoint answers.  The
    user has uploaded [sky.pdf], typed a question and pressed the button. *)
Definition local_env : Env :=
  {| secrets := NoSecrets (Exn "FileNotFoundError" "No secrets files found.");
     secrets_key_error := fun k => Exn "KeyError" ("st.secrets has no key " +:+ k);
     environ := {[ "ANTHROPIC_API_KEY" := "sk-ant-local" ]};
     Anthropic := fun k => Returns {| api_key := k |};
     messages_create := fun _ _ =>
       Returns {| response_content := [TextBlock "It is about the sky."] |};
     file_uploader_value := Some sky_pdf;
     text_input_value := "What is this about?";
     button_value := true |}.

(** [env] with other widget values. *)
Definition with_widgets (env : Env) (file : option UploadedFile)
    (question : string) (clicked : bool) : Env :=
  {| secrets := secrets env;
     secrets_key_error := secrets_key_error env;
     environ := environ env;
     Anthropic := Anthropic env;
     messages_create := messages_create env;
     file_uploader_value := file;
     text_input_value := question;
     button_value := clicked |}.

(** The transport fails. *)
Definition offline_env : Env :=
  {| secrets := secrets local_env;
     secrets_key_error := secrets_key_error local_env;
     environ := environ local_env;
     Anthropic := Anthropic local_env;
     messages_create := fun _ _ => Throws (Exn "APIConnectionError" "Connection error.");
     file_uploader_value := file_uploader_value local_env;
     text_input_value := text_input_value local_env;
     button_value := button_value local_env |}.

(** The client cannot even be constructed. *)
Definition broken_client_env : Env :=
  {| secrets := secrets local_env;
     secrets_key_error := secrets_key_error local_env;
     environ := environ local_env;
     Anthropic := fun _ =>
       Throws (Exn "TypeError" "Client.__init__() got an unexpected keyword argument 'proxies'");
     messages_create := messages_create local_env;
     file_uploader_value := file_uploader_value local_env;
     text_input_value := text_input_value local_env;
     button_value := button_value local_env |}.

(** Nothing is configured: no secrets file, no environment variable. *)
Definition unconfigured_env : Env :=
  {| secrets := secrets local_env;
     secrets_key_error := secrets_key_error local_env;
     environ := ∅;
     Anthropic := Anthropic local_env;
     messages_create := messages_create local_env;
     file_uploader_value := file_uploader_value local_env;
     text_input_value := text_input_value local_env;
     button_value := button_value local_env |}.

(** The user typed nothing, or a single space, and pressed the button. *)
Definition empty_question_env : Env := with_widgets local_env (Some sky_pdf) "" true.

Definition blank_question_env : Env := with_widgets local_env (Some sky_pdf) " " true.

(** A second upload in the same session. *)
Definition second_upload_env : Env :=
  with_widgets local_env (Some hello_world_pdf) "" false.

(** The zero-page PDF is uploaded. *)
Definition empty_upload_env : Env :=
  with_widgets local_env (Some empty_pdf) "What is this about?" true.

(** The first run of a session: nothing stored, nothing emitted. *)
Definition fresh : World := {| session_state := ∅; trace := [] |}.

(** ** Pure readings of the answer service and of the question section

    Given the environment, what [query_claude] returns and what the
    question-and-answer section shows are functions of the document text
    and the question; the run lemmas below relate them to the script. *)

(** The return value of [query_claude]. *)
Definition query_answer (env : Env) (d q : string) : string :=
  match Anthropic env (resolved_key env) with
  | Throws e => error_answer e
  | Returns c =>
      match messages_create env c (request d q) with
      | Throws e => error_answer e
      | Returns resp =>
          match response_content resp with
          | TextBlock t :: _ => t
          | OtherBlock cn :: _ =>
              error_answer
                (Exn "AttributeError" ("'" +:+ cn +:+ "' object has no attribute 'text'"))
          | [] => error_answer (Exn "IndexError" "list index out of range")
          end
      end
  end.

(** The request [query_claude] hands over, if it gets that far. *)
Definition query_requests (env : Env) (d q : string) : list event :=
  match Anthropic env (resolved_key env) with
  | Throws _ => []
  | Returns c => [Create c (request d q)]
  end.

(** What pressing the button shows, lines 99-109. *)
Definition ask_events (env : Env) (d q : string) : list event :=
  if truthy q then
    UI (st_spinner "Getting answer from Claude...")
    :: query_prelude env d q ++ query_requests env d q
    ++ [UI (st_success "🎯 Answer:"); UI (st_write (query_answer env d q))]
  else [omission_notice].

(** What the question-and-answer section shows, lines 91-111. *)
Definition qa_events (env : Env) (d : string) : list event :=
  if truthy d then
    qa_form ++ (if button_value env then ask_events env d (text_input_value env) else [])
  else [upload_prompt].

(** ** Counting events *)

Definition is_st_error (e : event) : bool :=
  match e with
  | UI (st_error _) => true
  | _ => false
  end.

Definition is_enter_get_api_key (e : event) : bool :=
  match e with
  | Enter_get_api_key => true
  | _ => false
  end.

(** How many of [evs] satisfy [p]. *)
Definition count_events (p : event -> bool) (evs : list event) : nat :=
  length (List.filter p evs).

(** The characters of all page texts together. *)
Definition total_len (ts : list string) : nat := list_sum (map len ts).

(** The words of all pages, in page order. *)
Definition page_words (ts : list string) : list string := List.concat (map split ts).

(** ** More sample documents and environments *)

(** A scanned document: three pages, no text layer. *)
Definition scanned_pdf : UploadedFile :=
  {| name := "scan.pdf";
     PdfReader := Returns [text_page ""; text_page ""; text_page ""] |}.

(** A document whose second page cannot be extracted. *)
Definition damaged_pdf : UploadedFile :=
  {| name := "damaged.pdf";
     PdfReader :=
       Returns [ text_page "Hello";
                 {| extract_text := Throws (Exn "PdfReadError" "Invalid page object") |};
                 text_page "World" ] |}.

(** A managed deployment: the secrets store holds the key, and the process
    environment holds another one. *)
Definition cloud_env : Env :=
  {| secrets := Secrets {[ "ANTHROPIC_API_KEY" := PyStr "sk-ant-cloud" ]};
     secrets_key_error := secrets_key_error local_env;
     environ := environ local_env;
     Anthropic := Anthropic local_env;
     messages_create := messages_create local_env;
     file_uploader_value := file_uploader_value local_env;
     text_input_value := text_input_value local_env;
     button_value := button_value local_env |}.

(** The secrets store holds a number under the key. *)
Definition numeric_secret_env : Env :=
  {| secrets := Secrets {[ "ANTHROPIC_API_KEY" := PyInt 12345 ]};
     secrets_key_error := secrets_key_error local_env;
     environ := environ local_env;
     Anthropic := Anthropic local_env;
     messages_create := messages_create local_env;
     file_uploader_value := file_uploader_value local_env;
     text_input_value := text_input_value local_env;
     button_value := button_value local_env |}.

(** The secrets store holds the empty string under the key, the process
    environment a real key. *)
Definition empty_secret_env : Env :=
  {| secrets := Secrets {[ "ANTHROPIC_API_KEY" := PyStr "" ]};
     secrets_key_error := secrets_key_error local_env;
     environ := environ local_env;
     Anthropic := Anthropic local_env;
     messages_create := messages_create local_env;
     file_uploader_value := file_uploader_value local_env;
     text_input_value := text_input_value local_env;
     button_value := button_value local_env |}.

(** The model's answer happens to read like a failure report. *)
Definition echo_env : Env :=
  {| secrets := secrets local_env;
     secrets_key_error := secrets_key_error local_env;
     environ := environ local_env;
     Anthropic := Anthropic local_env;
     messages_create := fun _ _ =>
       Returns {| response_content := [TextBlock "Error querying Claude: Connection error."] |};
     file_uploader_value := file_uploader_value local_env;
     text_input_value := text_input_value local_env;
     button_value := button_value local_env |}.

(** The user has removed the file from the uploader and asks again. *)
Definition no_file_env : Env := with_widgets local_env None "What is this about?" true.

(** The scanned document is uploaded. *)
Definition scanned_upload_env : Env :=
  with_widgets local_env (Some scanned_pdf) "What is this about?" false.

(** A session that holds [sky.pdf] from an earlier run. *)
Definition sky_session : World :=
  {| session_state :=
       <["document_name" := "sky.pdf"]>
         (<["document_text" := "The sky is blue." +:+ LF]> ∅);
     trace := [] |}.

(** * Properties *)

Example split_demo : split "  a b
c  " = ["a"; "b"; "c"].
Proof. reflexivity. Qed.

Example str_of_nat_demo : str_of_nat 120 = "120" /\ str_of_nat 0 = "0".
Proof. split; reflexivity. Qed.

(** A complete run: the local setup, [sky.pdf] uploaded, a question asked;
    the endpoint's answer is what the page shows last. *)
Example local_run :
  fst (script local_env fresh) = Ret tt
  /\ last (trace (snd (script local_env fresh)))
     = Some (UI (st_write "It is about the sky.")).
Proof. split; vm_compute; reflexivity. Qed.

(** ** Generic facts about runs *)

Lemma after_after w evs1 evs2 : after (after w evs1) evs2 = after w (evs1 ++ evs2).
Proof. unfold after. simpl. by rewrite app_assoc. Qed.

Lemma emit_run e w : emit e w = (Ret tt, after w [e]).
Proof. reflexivity. Qed.

Lemma st_run c w : st c w = (Ret tt, after w [UI c]).
Proof. reflexivity. Qed.

Lemma bind_run_ret {A B} (m : M A) (k : A -> M B) w a w' :
  m w = (Ret a, w') -> bind m k w = k a w'.
Proof. intros H. unfold bind. by rewrite H. Qed.

Lemma string_app_assoc (a b c : string) : (a +:+ b) +:+ c = a +:+ (b +:+ c).
Proof.
  induction a as [|x a IH]; [reflexivity|].
  change (String x ((a +:+ b) +:+ c) = String x (a +:+ (b +:+ c))).
  by rewrite IH.
Qed.

Lemma string_app_nil_r (a : string) : a +:+ "" = a.
Proof.
  induction a as [|x a IH]; [reflexivity|].
  change (String x (a +:+ "") = String x a). by rewrite IH.
Qed.

(** ** Credential resolution: [get_api_key] *)

Lemma get_api_key_run env w :
  get_api_key env w =
  (Ret (first_truthy (credential_sources env)),
   after w (Enter_get_api_key :: secrets_debug env)).
Proof.
  unfold get_api_key, credential_sources, secrets_value, secrets_debug, KEY.
  unfold after, bind, try_except, emit, st, emit.
  destruct (secrets_getitem env "ANTHROPIC_API_KEY") as [o|e];
    [destruct (truthy_obj o) eqn:Ho|];
    (destruct (os_getenv env "ANTHROPIC_API_KEY") as [v|];
     [destruct (truthy_obj v) eqn:Hv|]);
    simpl; rewrite ?Ho, ?Hv; simpl; rewrite <- ?app_assoc; reflexivity.
Qed.

Lemma first_truthy_truthy sources k :
  first_truthy sources = Some k -> truthy_obj k = true.
Proof.
  induction sources as [|o rest IH]; simpl; [discriminate|].
  destruct (truthy_opt o) eqn:Ho; [|exact IH].
  intros ->. exact Ho.
Qed.

Lemma truthy_obj_str (s : string) : truthy_obj (PyStr s) = true <-> s <> "".
Proof. destruct s; simpl; split; done. Qed.

(** Reading the environment after the access to the store. *)
Lemma os_getenv_no_secrets env e k :
  secrets env = NoSecrets e -> os_getenv env k = PyStr <$> environ env !! k.
Proof. intros H. unfold os_getenv, os_environ. by rewrite H. Qed.

Lemma os_getenv_secrets env top k :
  secrets env = Secrets top ->
  os_getenv env k =
  PyStr <$> match top !! k ≫= exported with
            | Some text => Some text
            | None => environ env !! k
            end.
Proof.
  intros H. unfold os_getenv, os_environ. rewrite H.
  rewrite lookup_union, lookup_omap.
  by destruct (top !! k ≫= exported), (environ env !! k).
Qed.

(** An access that raises has left the variable [k] alone. *)
Lemma os_getenv_after_raise env k e :
  secrets_getitem env k = Throws e -> os_getenv env k = PyStr <$> environ env !! k.
Proof.
  unfold secrets_getitem. destruct (secrets env) as [e'|top] eqn:Hs.
  - intros _. by apply (os_getenv_no_secrets env e').
  - destruct (top !! k) as [v|] eqn:Hk; [discriminate|]. intros _.
    rewrite (os_getenv_secrets env top k Hs), Hk. reflexivity.
Qed.

(** An access that returns has written the variable [k] if the object is
    of an exported type. *)
Lemma os_getenv_after_return env k v :
  secrets_getitem env k = Returns v ->
  os_getenv env k =
  PyStr <$> match exported v with
            | Some text => Some text
            | None => environ env !! k
            end.
Proof.
  unfold secrets_getitem. destruct (secrets env) as [e'|top] eqn:Hs; [discriminate|].
  destruct (top !! k) as [v'|] eqn:Hk; [|discriminate]. intros [= ->].
  rewrite (os_getenv_secrets env top k Hs), Hk. reflexivity.
Qed.

Lemma first_truthy_str (s : option string) :
  first_truthy [PyStr <$> s] = None
  \/ exists k : string, k <> "" /\ first_truthy [PyStr <$> s] = Some (PyStr k).
Proof.
  destruct s as [[|c s]|]; simpl; [by left| |by left].
  right. by exists (String c s).
Qed.

(** C9 as stated fails: when the secrets store holds the number 12345
    under the key, [get_api_key] returns that number, which is neither
    [None] nor a string. *)
Lemma get_api_key_returns_stored_number :
  fst (get_api_key numeric_secret_env fresh) = Ret (Some (PyInt 12345))
  /\ ~ (fst (get_api_key numeric_secret_env fresh) = Ret None
        \/ exists k : string,
             k <> "" /\ fst (get_api_key numeric_secret_env fresh) = Ret (Some (PyStr k))).
Proof.
  split; [reflexivity|].
  intros [H|(k & _ & H)]; vm_compute in H; discriminate H.
Qed.

(** C9, as the code has it: [get_api_key] returns the first value Python
    takes for true among the object stored in the secrets store and the
    environment variable, in that order, and [None] when there is none.
    It never returns the empty string or any other falsy value; what it
    returns is the stored object itself, which need not be a string.
    When the store holds a string under the key, or its access raises,
    the result is a non-empty string or [None]. *)
Theorem get_api_key_never_empty env w :
  fst (get_api_key env w) = Ret (first_truthy (credential_sources env))
  /\ first_truthy (credential_sources env) <> Some (PyStr "")
  /\ (fst (get_api_key env w) = Ret None
      \/ exists o, truthy_obj o = true /\ fst (get_api_key env w) = Ret (Some o))
  /\ ((forall o, secrets_getitem env KEY = Returns o -> is_str o = true) ->
      fst (get_api_key env w) = Ret None
      \/ exists k : string,
           k <> "" /\ fst (get_api_key env w) = Ret (Some (PyStr k))).
Proof.
  rewrite get_api_key_run. cbn [fst].
  split; [reflexivity|].
  split; [|split].
  - intros H. apply first_truthy_truthy in H. discriminate H.
  - destruct (first_truthy (credential_sources env)) as [o|] eqn:E; [|by left].
    right. exists o. split; [|reflexivity]. by apply first_truthy_truthy in E.
  - intros Hstr. unfold credential_sources, secrets_value.
    destruct (secrets_getitem env KEY) as [o|e] eqn:Hs.
    + specialize (Hstr o eq_refl). destruct o as [s| | |]; try discriminate Hstr.
      cbn [first_truthy truthy_opt truthy_obj].
      destruct s as [|c s]; cbn [truthy].
      * destruct (first_truthy_str (os_environ env !! KEY)) as [H|(k & Hk & H)];
          unfold os_getenv; cbn [first_truthy] in H; rewrite H; [by left|].
        right. by exists k.
      * right. by exists (String c s).
    + cbn [first_truthy truthy_opt].
      destruct (first_truthy_str (os_environ env !! KEY)) as [H|(k & Hk & H)];
        unfold os_getenv; cbn [first_truthy] in H; rewrite H; [by left|].
      right. by exists k.
Qed.

Lemma get_api_key_never_empty_witness :
  fst (get_api_key cloud_env fresh) = Ret None
  \/ exists k : string,
       k <> "" /\ fst (get_api_key cloud_env fresh) = Ret (Some (PyStr k)).
Proof.
  apply (proj2 (proj2 (proj2 (get_api_key_never_empty cloud_env fresh)))).
  intros o. vm_compute. intros [= <-]. reflexivity.
Defined.

(** C5 as stated fails: with the empty string under the key in the
    secrets store and a key in the environment variable, [get_api_key]
    returns [None], not the environment value: the access to the store has
    copied the empty string over the variable before line 21 reads it, and
    the script stops for want of a key. *)
Lemma get_api_key_empty_secret_hides_environment :
  secrets_getitem empty_secret_env KEY = Returns (PyStr "")
  /\ environ empty_secret_env !! KEY = Some "sk-ant-local"
  /\ fst (get_api_key empty_secret_env fresh) = Ret None
  /\ fst (script empty_secret_env fresh) = Stop.
Proof. repeat split; reflexivity. Qed.

(** C5, as the code has it: [get_api_key] never raises.  When the access
    to the secrets store raises (no store, or no such key), the exception
    is not propagated and the answer is decided by the environment
    variable as the script found it: its value when non-empty, [None]
    otherwise.  When the access yields a falsy value, the answer is
    decided by the environment variable as the access left it: an empty
    string or a number in the store has been copied over the variable, so
    the empty string gives [None]; a falsy value of another type leaves
    the variable as the script found it. *)
Theorem get_api_key_secrets_fall_through env w :
  (exists k w', get_api_key env w = (Ret k, w'))
  /\ (forall e, secrets_getitem env KEY = Throws e ->
        fst (get_api_key env w) = Ret (first_truthy [PyStr <$> environ env !! KEY])
        /\ forall v : string, environ env !! KEY = Some v -> v <> "" ->
                              fst (get_api_key env w) = Ret (Some (PyStr v)))
  /\ (forall o, secrets_getitem env KEY = Returns o -> truthy_obj o = false ->
        fst (get_api_key env w) = Ret (first_truthy [os_getenv env KEY])
        /\ (o = PyStr "" -> fst (get_api_key env w) = Ret None)
        /\ (exported o = None ->
            forall v : string, environ env !! KEY = Some v -> v <> "" ->
                               fst (get_api_key env w) = Ret (Some (PyStr v)))).
Proof.
  rewrite get_api_key_run. cbn [fst]. split; [eauto|]. split.
  - intros e He. unfold credential_sources, secrets_value. rewrite He.
    cbn [first_truthy truthy_opt]. fold (first_truthy [os_getenv env KEY]).
    rewrite (os_getenv_after_raise _ _ _ He).
    split; [reflexivity|]. intros v -> Hv.
    destruct v; [done|reflexivity].
  - intros o Ho Hfalsy. unfold credential_sources, secrets_value. rewrite Ho.
    cbn [first_truthy truthy_opt]. rewrite Hfalsy.
    fold (first_truthy [os_getenv env KEY]).
    split; [reflexivity|]. rewrite (os_getenv_after_return _ _ _ Ho). split.
    + intros ->. reflexivity.
    + intros -> v -> Hv. destruct v; [done|reflexivity].
Qed.

Lemma get_api_key_secrets_fall_through_witness :
  (exists e, secrets_getitem local_env KEY = Throws e)
  /\ fst (get_api_key local_env fresh) = Ret (Some (PyStr "sk-ant-local")).
Proof.
  split.
  - eexists. reflexivity.
  - apply (proj2 (proj1 (proj2 (get_api_key_secrets_fall_through local_env fresh))
                    (Exn "FileNotFoundError" "No secrets files found.") eq_refl)).
    + reflexivity.
    + discriminate.
Defined.

(** ** Frame conditions: what a command may emit, and whether it writes
    the session *)

Section Frame.

Context {A B : Type} (P : event -> Prop).

Lemma emits_ret (a : A) : emits P (ret a).
Proof. intros w. exists []. simpl. by rewrite app_nil_r. Qed.

Lemma emits_raise e : emits P (@raise A e).
Proof. intros w. exists []. simpl. by rewrite app_nil_r. Qed.

Lemma emits_stop : emits P (@st_stop A).
Proof. intros w. exists []. simpl. by rewrite app_nil_r. Qed.

Lemma emits_call (r : answer A) : emits P (call r).
Proof. destruct r; [apply emits_ret | apply emits_raise]. Qed.

Lemma emits_emit e : P e -> emits P (emit e).
Proof. intros H w. exists [e]. simpl. auto. Qed.

Lemma emits_st c : P (UI c) -> emits P (st c).
Proof. apply emits_emit. Qed.

Lemma emits_bind (m : M A) (k : A -> M B) :
  emits P m -> (forall a, emits P (k a)) -> emits P (bind m k).
Proof.
  intros Hm Hk w. unfold bind.
  destruct (Hm w) as (evs1 & E1 & F1).
  destruct (m w) as [[a|e|] w1]; simpl in *; eauto.
  destruct (Hk a w1) as (evs2 & E2 & F2).
  exists (evs1 ++ evs2). rewrite E2, E1, app_assoc. split; [done|].
  by apply Forall_app.
Qed.

Lemma emits_try_except (m : M A) (h : exn -> M A) :
  emits P m -> (forall e, emits P (h e)) -> emits P (try_except m h).
Proof.
  intros Hm Hh w. unfold try_except.
  destruct (Hm w) as (evs1 & E1 & F1).
  destruct (m w) as [[a|e|] w1]; simpl in *; eauto.
  destruct (Hh e w1) as (evs2 & E2 & F2).
  exists (evs1 ++ evs2). rewrite E2, E1, app_assoc. split; [done|].
  by apply Forall_app.
Qed.

Lemma emits_session_set k v : emits P (session_set k v).
Proof. intros w. exists []. simpl. by rewrite app_nil_r. Qed.

Lemma keeps_ret (a : A) : keeps_session (ret a).
Proof. by intros w. Qed.

Lemma keeps_raise e : keeps_session (@raise A e).
Proof. by intros w. Qed.

Lemma keeps_call (r : answer A) : keeps_session (call r).
Proof. by destruct r. Qed.

Lemma keeps_bind (m : M A) (k : A -> M B) :
  keeps_session m -> (forall a, keeps_session (k a)) -> keeps_session (bind m k).
Proof.
  intros Hm Hk w. unfold bind. specialize (Hm w).
  destruct (m w) as [[a|e|] w1]; simpl in *; [|done..].
  by rewrite Hk.
Qed.

Lemma keeps_try_except (m : M A) (h : exn -> M A) :
  keeps_session m -> (forall e, keeps_session (h e)) ->
  keeps_session (try_except m h).
Proof.
  intros Hm Hh w. unfold try_except. specialize (Hm w).
  destruct (m w) as [[a|e|] w1]; simpl in *; [done| |done].
  by rewrite Hh.
Qed.

End Frame.

Lemma emits_session_contains P k : emits P (session_contains k).
Proof. intros w. exists []. simpl. by rewrite app_nil_r. Qed.

Lemma emits_session_get P k : emits P (session_get k).
Proof.
  intros w. exists []. unfold session_get.
  destruct (session_state w !! k); simpl; by rewrite app_nil_r.
Qed.

Lemma keeps_emit e : keeps_session (emit e).
Proof. by intros w. Qed.

Lemma keeps_st c : keeps_session (st c).
Proof. by intros w. Qed.

Lemma keeps_session_get k : keeps_session (session_get k).
Proof. intros w. unfold session_get. by destruct (session_state w !! k). Qed.

Lemma emits_for_each {A B} P (xs : list A) (acc : B) body :
  (forall b a, emits P (body b a)) -> emits P (for_each xs acc body).
Proof.
  intros Hb. revert acc.
  induction xs as [|x xs IH]; intros acc; simpl.
  - apply emits_ret.
  - apply emits_bind; auto.
Qed.

Lemma keeps_for_each {A B} (xs : list A) (acc : B) body :
  (forall b a, keeps_session (body b a)) -> keeps_session (for_each xs acc body).
Proof.
  intros Hb. revert acc.
  induction xs as [|x xs IH]; intros acc; simpl.
  - apply keeps_ret.
  - apply keeps_bind; auto.
Qed.

(** Decompose a command along its [bind]s, handlers and branches. *)
Ltac frame_step :=
  match goal with
  | |- emits _ (bind _ _) => apply emits_bind; [|intros ?]
  | |- emits _ (try_except _ _) => apply emits_try_except; [|intros ?]
  | |- emits _ (ret _) => apply emits_ret
  | |- emits _ (raise _) => apply emits_raise
  | |- emits _ st_stop => apply emits_stop
  | |- emits _ (call _) => apply emits_call
  | |- emits _ (emit _) => apply emits_emit
  | |- emits _ (st _) => apply emits_st
  | |- emits _ (session_set _ _) => apply emits_session_set
  | |- emits _ (session_get _) => apply emits_session_get
  | |- emits _ (session_contains _) => apply emits_session_contains
  | |- emits _ (for_each _ _ _) => apply emits_for_each; intros ? ?
  | |- keeps_session (bind _ _) => apply keeps_bind; [|intros ?]
  | |- keeps_session (try_except _ _) => apply keeps_try_except; [|intros ?]
  | |- keeps_session (ret _) => apply keeps_ret
  | |- keeps_session (raise _) => apply keeps_raise
  | |- keeps_session (call _) => apply keeps_call
  | |- keeps_session (emit _) => apply keeps_emit
  | |- keeps_session (st _) => apply keeps_st
  | |- keeps_session (session_get _) => apply keeps_session_get
  | |- keeps_session (for_each _ _ _) => apply keeps_for_each; intros ? ?
  | |- emits _ (match ?x with _ => _ end) => destruct x
  | |- keeps_session (match ?x with _ => _ end) => destruct x
  end.

Ltac frame := repeat frame_step; try done.

(** ** Text extraction: [extract_text_from_pdf] *)

Lemma for_each_pages_run pages text w :
  for_each pages text
    (fun text page => t <- call (extract_text page) ;; ret (text +:+ (t +:+ LF))) w
  = (outcome_of (pages_text pages text), w).
Proof.
  revert text. induction pages as [|[[t|e]] rest IH]; intros text; simpl.
  - reflexivity.
  - unfold bind at 1. simpl. apply IH.
  - reflexivity.
Qed.

Lemma extract_text_from_pdf_run f w :
  extract_text_from_pdf f w =
  (outcome_of (extraction f), after w [Enter_extract_text_from_pdf (name f)]).
Proof.
  unfold extract_text_from_pdf, extraction.
  rewrite (bind_run_ret _ _ _ _ _ (emit_run _ _)).
  destruct (PdfReader f) as [pages|e]; simpl.
  - unfold bind. simpl. apply for_each_pages_run.
  - reflexivity.
Qed.

Lemma pages_text_lines pages ts text :
  Forall2 (fun p t => extract_text p = Returns t) pages ts ->
  pages_text pages text = Returns (text +:+ page_lines ts).
Proof.
  intros H. revert text.
  induction H as [|p t pages ts Hp _ IH]; intros text; simpl.
  - by rewrite string_app_nil_r.
  - rewrite Hp, IH. by rewrite !string_app_assoc.
Qed.

Lemma page_lines_separated ts :
  page_lines ts = newline_separated ts +:+ match ts with [] => "" | _ :: _ => LF end.
Proof.
  unfold newline_separated.
  induction ts as [|t [|t' rest] IH].
  - reflexivity.
  - reflexivity.
  - change (page_lines (t :: t' :: rest)) with (t +:+ LF +:+ page_lines (t' :: rest)).
    change (String.concat LF (t :: t' :: rest))
      with (t +:+ LF +:+ String.concat LF (t' :: rest)).
    rewrite IH. by rewrite !string_app_assoc.
Qed.

Lemma page_lines_empty ts :
  Forall (fun t => t = "") ts -> page_lines ts = newlines (length ts).
Proof.
  induction 1 as [|t rest -> _ IH]; [reflexivity|].
  simpl. by rewrite IH.
Qed.

(** C6: for a PDF that parses and whose pages all extract, the result is
    the page texts in page order, neighbours separated by exactly one
    newline, with one more newline closing the last page; when every page
    is empty the result is one newline per page and nothing else. *)
Theorem extract_text_pages_in_order f pages ts w :
  PdfReader f = Returns pages ->
  Forall2 (fun p t => extract_text p = Returns t) pages ts ->
  exists text,
    extract_text_from_pdf f w
      = (Ret text, after w [Enter_extract_text_from_pdf (name f)])
    /\ text = newline_separated ts +:+ match ts with [] => "" | _ :: _ => LF end
    /\ (Forall (fun t => t = "") ts -> text = newlines (length ts)).
Proof.
  intros Hf Hp. exists (page_lines ts).
  rewrite extract_text_from_pdf_run. unfold extraction. rewrite Hf.
  rewrite (pages_text_lines _ _ _ Hp). simpl.
  split; [reflexivity|]. split.
  - apply page_lines_separated.
  - apply page_lines_empty.
Qed.

Lemma extract_text_pages_in_order_witness :
  exists text,
    extract_text_from_pdf hello_world_pdf fresh
      = (Ret text, after fresh [Enter_extract_text_from_pdf "hello.pdf"])
    /\ text = "Hello" +:+ LF +:+ "World" +:+ LF
    /\ (Forall (fun t => t = "") ["Hello"; "World"] -> text = newlines 2).
Proof.
  apply (extract_text_pages_in_order hello_world_pdf
           [text_page "Hello"; text_page "World"] ["Hello"; "World"] fresh).
  - reflexivity.
  - repeat constructor.
Defined.

(** ** The upload handler *)

Lemma on_upload_run_ok f t w :
  extraction f = Returns t ->
  on_upload f w =
  (Ret tt,
   {| session_state :=
        <["document_name" := name f]> (<["document_text" := t]> (session_state w));
      trace := trace w ++ upload_events f t |}).
Proof.
  intros E. unfold on_upload.
  rewrite (bind_run_ret _ _ _ _ _ (st_run _ _)).
  unfold bind at 1. rewrite extract_text_from_pdf_run, E. cbn [outcome_of].
  unfold bind, session_set, st, emit, after, upload_events.
  cbn [session_state trace]. rewrite <- !app_assoc. reflexivity.
Qed.

Lemma on_upload_run_fail f e w :
  extraction f = Throws e ->
  on_upload f w =
  (Raise e,
   after w [UI (st_spinner "Processing document...");
            Enter_extract_text_from_pdf (name f)]).
Proof.
  intros E. unfold on_upload.
  rewrite (bind_run_ret _ _ _ _ _ (st_run _ _)).
  unfold bind at 1. rewrite extract_text_from_pdf_run, E. cbn [outcome_of].
  by rewrite after_after.
Qed.

(** C2, as the code has it: the two-page document extracts to
    ["Hello\nWorld\n"], which has 2 words and, counting both newlines, 12
    characters; these are the numbers the upload handler displays. *)
Theorem upload_hello_world_stats file_name w :
  extract_text_from_pdf (hello_world file_name) w
    = (Ret hello_world_text, after w [Enter_extract_text_from_pdf file_name])
  /\ length (split hello_world_text) = 2
  /\ len hello_world_text = 12
  /\ In (UI (st_info "📊 Document stats: 2 words, 12 characters"))
        (trace (snd (on_upload (hello_world file_name) w))).
Proof.
  split; [by rewrite extract_text_from_pdf_run|].
  split; [reflexivity|]. split; [reflexivity|].
  rewrite (on_upload_run_ok _ hello_world_text); [|reflexivity].
  cbn [snd trace]. apply in_or_app. right.
  unfold upload_events. do 3 right. left. reflexivity.
Qed.

(** C2 as stated fails: the character count of the scenario is not 11. *)
Lemma upload_hello_world_not_11_chars :
  ~ (exists text w',
        extract_text_from_pdf hello_world_pdf fresh = (Ret text, w')
        /\ text = hello_world_text
        /\ length (split text) = 2
        /\ len text = 11).
Proof.
  intros (text & w' & _ & -> & _ & H). vm_compute in H. discriminate.
Qed.

(** ** The answer service: [query_claude] *)

Lemma requests_of_app evs1 evs2 :
  requests_of (evs1 ++ evs2) = requests_of evs1 ++ requests_of evs2.
Proof.
  induction evs1 as [|[] evs1 IH]; simpl; try done. by rewrite IH.
Qed.

Lemma requests_of_prelude env d q : requests_of (query_prelude env d q) = [].
Proof.
  unfold query_prelude, secrets_debug. simpl.
  by destruct (secrets_getitem env KEY).
Qed.

(** Client construction raises: no request is made. *)
Lemma query_claude_run_no_client env d q w e :
  Anthropic env (resolved_key env) = Throws e ->
  query_claude env d q w = (Ret (error_answer e), after w (query_prelude env d q)).
Proof.
  intros E. unfold query_claude, query_claude_try.
  rewrite (bind_run_ret _ _ _ _ _ (emit_run _ _)).
  unfold try_except, bind at 1. rewrite get_api_key_run.
  fold (resolved_key env). rewrite E. cbn [call raise ret].
  by rewrite after_after.
Qed.

(** The endpoint raises after the request was handed over. *)
Lemma query_claude_run_create_raises env d q w c e :
  Anthropic env (resolved_key env) = Returns c ->
  messages_create env c (request d q) = Throws e ->
  query_claude env d q w =
  (Ret (error_answer e),
   after w (query_prelude env d q ++ [Create c (request d q)])).
Proof.
  intros E1 E2. unfold query_claude, query_claude_try.
  rewrite (bind_run_ret _ _ _ _ _ (emit_run _ _)).
  unfold try_except, bind at 1. rewrite get_api_key_run.
  fold (resolved_key env). rewrite E1. cbn [call raise ret].
  unfold bind at 1. cbn [ret].
  rewrite (bind_run_ret _ _ _ _ _ (emit_run _ _)).
  unfold bind at 1. rewrite E2. cbn [call raise ret].
  by rewrite !after_after.
Qed.

(** The endpoint answers: [response.content[0].text] decides. *)
Lemma query_claude_run_response env d q w c resp :
  Anthropic env (resolved_key env) = Returns c ->
  messages_create env c (request d q) = Returns resp ->
  query_claude env d q w =
  (Ret match response_content resp with
       | TextBlock t :: _ => t
       | OtherBlock cn :: _ =>
           error_answer (Exn "AttributeError" ("'" +:+ cn +:+ "' object has no attribute 'text'"))
       | [] => error_answer (Exn "IndexError" "list index out of range")
       end,
   after w (query_prelude env d q ++ [Create c (request d q)])).
Proof.
  intros E1 E2. unfold query_claude, query_claude_try.
  rewrite (bind_run_ret _ _ _ _ _ (emit_run _ _)).
  unfold try_except, bind at 1. rewrite get_api_key_run.
  fold (resolved_key env). rewrite E1. cbn [call raise ret].
  unfold bind at 1. cbn [ret].
  rewrite (bind_run_ret _ _ _ _ _ (emit_run _ _)).
  unfold bind at 1. rewrite E2. cbn [call raise ret].
  rewrite !after_after.
  destruct (response_content resp) as [|[t|cn] rest]; reflexivity.
Qed.

(** [query_claude] always returns a string and never writes the session;
    its trace starts with its own entry. *)
Lemma query_claude_returns env d q w :
  exists answer rest,
    query_claude env d q w = (Ret answer, after w (query_prelude env d q ++ rest)).
Proof.
  destruct (Anthropic env (resolved_key env)) as [c|e] eqn:E1.
  - destruct (messages_create env c (request d q)) as [resp|e] eqn:E2.
    + erewrite query_claude_run_response by eassumption. eauto.
    + erewrite query_claude_run_create_raises by eassumption. eauto.
  - erewrite query_claude_run_no_client by eassumption.
    exists (error_answer e), []. by rewrite app_nil_r.
Qed.

Lemma prompt_embeds d q :
  prompt d q = prompt_head +:+ d +:+ prompt_mid +:+ q +:+ prompt_tail.
Proof.
  unfold prompt, prompt_head, prompt_mid, prompt_tail.
  by rewrite !string_app_assoc.
Qed.

(** C3: [query_claude] always returns a string to its caller.  Whatever
    exception the [try] block ends in, the return value is
    ["Error querying Claude: "] followed by its message: so for a failing
    client construction, a failing call, an empty content list and a first
    segment without text.  When the first segment is a text block, its
    text is the return value. *)
Theorem query_claude_never_raises env d q w :
  (exists answer w', query_claude env d q w = (Ret answer, w'))
  /\ (forall e,
        fst (query_claude_try env d q (after w [Enter_query_claude d q])) = Raise e ->
        fst (query_claude env d q w) = Ret ("Error querying Claude: " +:+ str e))
  /\ (forall e,
        Anthropic env (resolved_key env) = Throws e ->
        fst (query_claude env d q w) = Ret ("Error querying Claude: " +:+ str e))
  /\ (forall c e,
        Anthropic env (resolved_key env) = Returns c ->
        messages_create env c (request d q) = Throws e ->
        fst (query_claude env d q w) = Ret ("Error querying Claude: " +:+ str e))
  /\ (forall c resp,
        Anthropic env (resolved_key env) = Returns c ->
        messages_create env c (request d q) = Returns resp ->
        match response_content resp with
        | TextBlock t :: _ => fst (query_claude env d q w) = Ret t
        | _ => exists e, fst (query_claude env d q w)
                         = Ret ("Error querying Claude: " +:+ str e)
        end).
Proof.
  split; [|split; [|split; [|split]]].
  - destruct (query_claude_returns env d q w) as (a & rest & H). eauto.
  - intros e H. unfold query_claude.
    rewrite (bind_run_ret _ _ _ _ _ (emit_run _ _)).
    unfold try_except.
    destruct (query_claude_try env d q (after w [Enter_query_claude d q]))
      as [[t|e'|] w1]; simpl in H; try discriminate.
    by inversion H.
  - intros e E. by rewrite (query_claude_run_no_client _ _ _ _ _ E).
  - intros c e E1 E2. by rewrite (query_claude_run_create_raises _ _ _ _ _ _ E1 E2).
  - intros c resp E1 E2. rewrite (query_claude_run_response _ _ _ _ _ _ E1 E2).
    destruct (response_content resp) as [|[t|cn] rest]; cbn [fst]; eauto.
Qed.

(** The specification's scenario: the transport fails with
    ["Connection error."]. *)
Lemma query_claude_never_raises_witness :
  fst (query_claude offline_env "The sky is blue." "What is this about?" fresh)
  = Ret "Error querying Claude: Connection error.".
Proof.
  apply (proj1 (proj2 (proj2 (proj2
           (query_claude_never_raises offline_env
              "The sky is blue." "What is this about?" fresh))))
         {| api_key := Some (PyStr "sk-ant-local") |}
         (Exn "APIConnectionError" "Connection error.")).
  - reflexivity.
  - reflexivity.
Defined.

(** C8 as stated fails: when the client cannot be constructed the call
    ends without any request. *)
Lemma query_claude_without_request :
  requests_of (trace (snd (query_claude broken_client_env
                             "The sky is blue." "What is this about?" fresh))) = []
  /\ length (requests_of (trace (snd (query_claude broken_client_env
                             "The sky is blue." "What is this about?" fresh)))) <> 1.
Proof. split; [reflexivity | vm_compute; discriminate]. Qed.

(** C8, as the code has it: an invocation hands the endpoint one request
    when the client was constructed and none when construction raised,
    never more.  The request names the model
    [claude-3-haiku-20240307], allows 1000 output tokens and carries one
    user message, the fixed prompt with the document text and the question
    embedded verbatim.  When the response's first segment is a text block,
    its text is the return value. *)
Theorem query_claude_request env d q w :
  exists answer evs,
    query_claude env d q w = (Ret answer, after w evs)
    /\ requests_of evs =
         match Anthropic env (resolved_key env) with
         | Returns c => [(c, request d q)]
         | Throws _ => []
         end
    /\ model (request d q) = "claude-3-haiku-20240307"
    /\ max_tokens (request d q) = 1000%Z
    /\ messages (request d q) =
         [ {| role := "user";
              content := prompt_head +:+ d +:+ prompt_mid +:+ q +:+ prompt_tail |} ]
    /\ (forall c resp t rest,
          Anthropic env (resolved_key env) = Returns c ->
          messages_create env c (request d q) = Returns resp ->
          response_content resp = TextBlock t :: rest ->
          answer = t).
Proof.
  assert (Hreq : forall c, requests_of (query_prelude env d q ++ [Create c (request d q)])
                           = [(c, request d q)]).
  { intros c. by rewrite requests_of_app, requests_of_prelude. }
  assert (Hmsg : messages (request d q) =
         [ {| role := "user";
              content := prompt_head +:+ d +:+ prompt_mid +:+ q +:+ prompt_tail |} ]).
  { unfold request. cbn [messages]. by rewrite prompt_embeds. }
  destruct (Anthropic env (resolved_key env)) as [c|e] eqn:E1.
  - destruct (messages_create env c (request d q)) as [resp|e] eqn:E2.
    + eexists _, _. split; [by apply query_claude_run_response|].
      split; [apply Hreq|]. do 3 (split; [done|]).
      intros c' resp' t rest [= <-]. rewrite E2. intros [= <-] ->. reflexivity.
    + eexists _, _. split; [by apply query_claude_run_create_raises|].
      split; [apply Hreq|]. do 3 (split; [done|]).
      intros c' resp' t rest [= <-]. rewrite E2. discriminate.
  - eexists _, _. split; [by apply query_claude_run_no_client|].
    split; [apply requests_of_prelude|]. do 3 (split; [done|]).
    intros c' resp' t rest. discriminate.
Qed.

Lemma query_claude_request_witness :
  exists answer evs,
    query_claude local_env "The sky is blue." "What is this about?" fresh
      = (Ret answer, after fresh evs)
    /\ requests_of evs =
         [({| api_key := Some (PyStr "sk-ant-local") |},
           request "The sky is blue." "What is this about?")]
    /\ answer = "It is about the sky.".
Proof.
  destruct (query_claude_request local_env "The sky is blue." "What is this about?" fresh)
    as (answer & evs & Hrun & Hreq & _ & _ & _ & Hans).
  exists answer, evs. split; [exact Hrun|]. split; [exact Hreq|].
  apply (Hans {| api_key := Some (PyStr "sk-ant-local") |}
              {| response_content := [TextBlock "It is about the sky."] |}
              "It is about the sky." []); reflexivity.
Defined.

(** ** The session orchestrator: [main] and the [__main__] block *)

Lemma init_session_run w :
  init_session w =
  (Ret tt, {| session_state := initialised (session_state w); trace := trace w |}).
Proof.
  unfold init_session, initialised, with_default, bind, session_contains, session_set, ret.
  cbn [session_state trace negb].
  destruct w as [s t]. cbn [session_state trace].
  destruct (bool_decide (is_Some (s !! "document_text"))); cbn [negb session_state trace];
    match goal with
    | |- context [bool_decide (is_Some (?m !! "document_name"))] =>
        destruct (bool_decide (is_Some (m !! "document_name")))
    end; reflexivity.
Qed.

Lemma before_qa_run env w :
  before_qa env w =
  match file_uploader_value env with
  | Some f => on_upload f (at_upload w)
  | None => (Ret tt, at_upload w)
  end.
Proof.
  unfold before_qa, file_uploader, at_upload, main_header.
  do 3 (unfold bind at 1; rewrite ?emit_run, ?st_run).
  unfold bind at 1. rewrite init_session_run.
  do 2 (unfold bind at 1). rewrite st_run. unfold after, ret.
  cbn [session_state trace]. rewrite <- !app_assoc. cbn [app].
  destruct (file_uploader_value env); reflexivity.
Qed.

Lemma main_split env w :
  main env w =
  match before_qa env w with
  | (Ret _, w1) => qa_section env w1
  | (Raise e, w1) => (Raise e, w1)
  | (Stop, w1) => (Stop, w1)
  end.
Proof.
  unfold main, before_qa.
  unfold bind at 1 7. rewrite emit_run.
  unfold bind at 1 6. rewrite st_run.
  unfold bind at 1 5. rewrite st_run.
  unfold bind at 1 4. rewrite init_session_run.
  unfold bind at 1 3.
  destruct (file_uploader env "Choose a PDF file" _) as [[[f|]|e|] w1]; try reflexivity.
Qed.

Lemma truthy_nonempty s : s <> "" -> truthy s = true.
Proof. by destruct s. Qed.

Lemma qa_section_run_empty env w :
  session_state w !! "document_text" = Some "" ->
  qa_section env w = (Ret tt, after w [upload_prompt]).
Proof.
  intros H. unfold qa_section, bind at 1, session_get. rewrite H. reflexivity.
Qed.

Lemma qa_section_run_loaded env w d :
  session_state w !! "document_text" = Some d -> d <> "" ->
  qa_section env w =
  if button_value env then on_ask env (text_input_value env) (after w qa_form)
  else (Ret tt, after w qa_form).
Proof.
  intros H Hd. unfold qa_section, bind at 1, session_get. rewrite H.
  rewrite (truthy_nonempty _ Hd).
  rewrite (bind_run_ret _ _ _ _ _ (st_run _ _)).
  rewrite (bind_run_ret _ _ _ _ _ (st_run _ _)).
  unfold text_input, button.
  unfold bind at 1. unfold bind at 1. rewrite st_run. cbn [ret].
  unfold bind at 1. unfold bind at 1. rewrite st_run. cbn [ret].
  rewrite !after_after. cbn [app]. fold qa_form.
  destruct (button_value env); reflexivity.
Qed.

Lemma on_ask_run_empty env w : on_ask env "" w = (Ret tt, after w [omission_notice]).
Proof. reflexivity. Qed.

Lemma on_ask_run_question env q w d :
  q <> "" ->
  session_state w !! "document_text" = Some d ->
  exists answer rest,
    query_claude env d q (after w [UI (st_spinner "Getting answer from Claude...")])
      = (Ret answer,
         after (after w [UI (st_spinner "Getting answer from Claude...")])
               (query_prelude env d q ++ rest))
    /\ on_ask env q w =
       (Ret tt,
        after w (UI (st_spinner "Getting answer from Claude...")
                 :: query_prelude env d q ++ rest
                 ++ [UI (st_success "🎯 Answer:"); UI (st_write answer)])).
Proof.
  intros Hq Hd.
  destruct (query_claude_returns env d q
              (after w [UI (st_spinner "Getting answer from Claude...")]))
    as (answer & rest & Hrun).
  exists answer, rest. split; [exact Hrun|].
  unfold on_ask. rewrite (truthy_nonempty _ Hq).
  rewrite (bind_run_ret _ _ _ _ _ (st_run _ _)).
  unfold try_except, bind at 1, session_get.
  cbn [after session_state]. rewrite Hd.
  unfold bind at 1. fold (after w [UI (st_spinner "Getting answer from Claude...")]).
  rewrite Hrun.
  rewrite (bind_run_ret _ _ _ _ _ (st_run _ _)). rewrite st_run.
  rewrite !after_after. do 2 f_equal. cbn [app]. f_equal.
  by rewrite <- !app_assoc.
Qed.

(** *** Frame conditions of the script's functions *)

Lemma keeps_get_api_key env : keeps_session (get_api_key env).
Proof. intros w. by rewrite get_api_key_run. Qed.

Lemma keeps_query_claude env d q : keeps_session (query_claude env d q).
Proof.
  intros w. destruct (query_claude_returns env d q w) as (a & rest & ->). reflexivity.
Qed.

Lemma keeps_on_ask env q : keeps_session (on_ask env q).
Proof.
  unfold on_ask. frame. apply keeps_query_claude.
Qed.

Lemma keeps_qa_section env : keeps_session (qa_section env).
Proof.
  unfold qa_section, text_input, button. frame. apply keeps_on_ask.
Qed.

Lemma emits_extract_text_from_pdf P f :
  P (Enter_extract_text_from_pdf (name f)) -> emits P (extract_text_from_pdf f).
Proof. intros H. unfold extract_text_from_pdf. frame. Qed.

Lemma before_qa_no_qa_event env :
  emits (fun e => is_qa_event e = false) (before_qa env).
Proof.
  unfold before_qa, init_session, file_uploader, on_upload. frame.
  by apply emits_extract_text_from_pdf.
Qed.

Lemma emits_weaken {A} (P Q : event -> Prop) (m : M A) :
  (forall e, P e -> Q e) -> emits P m -> emits Q m.
Proof.
  intros HPQ Hm w. destruct (Hm w) as (evs & E & F).
  exists evs. split; [done|]. eapply Forall_impl; eauto.
Qed.

Lemma main_emits P env :
  emits P (before_qa env) -> emits P (qa_section env) -> emits P (main env).
Proof.
  intros H1 H2 w. rewrite main_split.
  destruct (H1 w) as (evs1 & E1 & F1).
  destruct (before_qa env w) as [[[]|e|] w1]; cbn [snd] in *; eauto.
  destruct (H2 w1) as (evs2 & E2 & F2).
  exists (evs1 ++ evs2). rewrite E2, E1, app_assoc. split; [done|].
  by apply Forall_app.
Qed.

(** With an empty question the section never enters [query_claude]. *)
Lemma qa_section_empty_question env :
  text_input_value env = "" ->
  emits (fun e => is_enter_query_claude e = false) (qa_section env).
Proof.
  intros Hq w.
  destruct (session_state w !! "document_text") as [d|] eqn:Hd.
  - destruct (decide (d = "")) as [->|Hne].
    + rewrite (qa_section_run_empty _ _ Hd). exists [upload_prompt].
      split; [done|]. by repeat constructor.
    + rewrite (qa_section_run_loaded _ _ _ Hd Hne), Hq.
      destruct (button_value env).
      * rewrite on_ask_run_empty, after_after.
        eexists. split; [reflexivity|]. by repeat constructor.
      * eexists. split; [reflexivity|]. by repeat constructor.
  - unfold qa_section, bind, session_get. rewrite Hd.
    exists []. cbn [snd]. by rewrite app_nil_r.
Qed.

(** *** The question-asked event *)

(** C1 as stated fails: a question of one space is whitespace only, yet
    the handler enters [query_claude] with it and shows no notice. *)
Lemma blank_question_reaches_query_claude :
  blank " " = true
  /\ In (Enter_query_claude ("The sky is blue." +:+ LF) " ")
        (trace (snd (main blank_question_env fresh)))
  /\ ~ In omission_notice (trace (snd (main blank_question_env fresh))).
Proof.
  split; [reflexivity|]. split.
  - vm_compute. do 15 right. left. reflexivity.
  - vm_compute. intros H.
    repeat (destruct H as [H|H]; [discriminate H|]). exact H.
Qed.

(** C1, as the code has it: the guard of line 99 rejects the empty string
    and nothing else.  For the empty question the handler shows the notice
    ["Please enter a question!"] and does nothing more: the session is
    untouched and [query_claude] is not entered anywhere in the run; when
    the form is shown and the button pressed, the run ends with the form
    followed by the notice. *)
Theorem ask_with_empty_question env w :
  on_ask env "" w = (Ret tt, after w [omission_notice])
  /\ (text_input_value env = "" ->
      emits (fun e => is_enter_query_claude e = false) (main env)
      /\ (button_value env = true ->
          forall w1 d,
            before_qa env w = (Ret tt, w1) ->
            session_state w1 !! "document_text" = Some d -> d <> "" ->
            main env w = (Ret tt, after w1 (qa_form ++ [omission_notice])))).
Proof.
  split; [apply on_ask_run_empty|].
  intros Hq. split.
  - apply main_emits.
    + eapply emits_weaken; [|apply before_qa_no_qa_event].
      by intros [[]| | | | |].
    + by apply qa_section_empty_question.
  - intros Hb w1 d H1 Hd Hne.
    rewrite main_split, H1, (qa_section_run_loaded _ _ _ Hd Hne), Hb, Hq.
    by rewrite on_ask_run_empty, after_after.
Qed.

Lemma ask_with_empty_question_witness :
  main empty_question_env fresh
  = (Ret tt, after (snd (before_qa empty_question_env fresh))
                   (qa_form ++ [omission_notice])).
Proof.
  apply (proj2 (proj2 (ask_with_empty_question empty_question_env fresh) eq_refl)
           eq_refl _ ("The sky is blue." +:+ LF)).
  - vm_compute. reflexivity.
  - vm_compute. reflexivity.
  - discriminate.
Defined.

(** *** The document-uploaded event *)

Lemma upload_lookups f t (s : gmap string string) :
  let s' := <["document_name" := name f]> (<["document_text" := t]> s) in
  s' !! "document_text" = Some t
  /\ s' !! "document_name" = Some (name f)
  /\ forall k, k <> "document_text" -> k <> "document_name" -> s' !! k = s !! k.
Proof.
  cbn zeta. split; [|split].
  - rewrite lookup_insert_ne; [|done]. by rewrite lookup_insert_eq.
  - by rewrite lookup_insert_eq.
  - intros k H1 H2. by rewrite !lookup_insert_ne.
Qed.

(** C4: the upload handler writes the two session fields as a pair.  When
    extraction succeeds, both hold the new document's values whatever the
    session held before, every other key is as it was, and so the session
    stays to the end of [main]; when extraction raises, the handler and
    [main] raise with the session as the handler found it. *)
Theorem upload_updates_pair env f w :
  (forall t, extraction f = Returns t ->
     (exists w', on_upload f w = (Ret tt, w')
        /\ session_state w' !! "document_text" = Some t
        /\ session_state w' !! "document_name" = Some (name f)
        /\ forall k, k <> "document_text" -> k <> "document_name" ->
                     session_state w' !! k = session_state w !! k)
     /\ (file_uploader_value env = Some f ->
         session_state (snd (main env w)) !! "document_text" = Some t
         /\ session_state (snd (main env w)) !! "document_name" = Some (name f)))
  /\ (forall e, extraction f = Throws e ->
        (exists w', on_upload f w = (Raise e, w')
           /\ session_state w' = session_state w)
        /\ (file_uploader_value env = Some f ->
            exists w', main env w = (Raise e, w')
              /\ session_state w' = initialised (session_state w))).
Proof.
  split.
  - intros t E. split.
    + eexists. split; [by apply on_upload_run_ok|].
      cbn [session_state]. apply upload_lookups.
    + intros Hf. rewrite main_split, before_qa_run, Hf, (on_upload_run_ok _ _ _ E).
      rewrite keeps_qa_section. cbn [session_state].
      split; apply upload_lookups.
  - intros e E. split.
    + eexists. split; [by apply on_upload_run_fail|]. reflexivity.
    + intros Hf. rewrite main_split, before_qa_run, Hf, (on_upload_run_fail _ _ _ E).
      eexists. split; [reflexivity|]. reflexivity.
Qed.

(** The specification's scenario: [hello.pdf] uploaded in a session that
    already holds [sky.pdf]. *)
Lemma upload_updates_pair_witness :
  session_state (snd (main local_env fresh)) !! "document_text"
    = Some ("The sky is blue." +:+ LF)
  /\ session_state (snd (main second_upload_env (snd (main local_env fresh))))
       !! "document_text" = Some hello_world_text
  /\ session_state (snd (main second_upload_env (snd (main local_env fresh))))
       !! "document_name" = Some "hello.pdf".
Proof.
  split.
  - apply (proj2 (proj1 (upload_updates_pair local_env sky_pdf fresh)
                    ("The sky is blue." +:+ LF) eq_refl) eq_refl).
  - apply (proj2 (proj1 (upload_updates_pair second_upload_env hello_world_pdf
                           (snd (main local_env fresh)))
                    hello_world_text eq_refl) eq_refl).
Defined.

(** *** No document loaded *)

(** C10: if a run of [main] ends with an empty [document_text] in the
    session, it showed neither the question field nor the button, did not
    enter [query_claude] and made no request; a run that returns ends with
    the upload prompt instead.  A zero-page PDF is such a case: the upload is reported as
    processed successfully, the session then holds the empty text under
    the file's name, and the run ends with the upload prompt. *)
Theorem empty_document_hides_qa env w :
  (forall r w', main env w = (r, w') ->
     session_state w' !! "document_text" = Some "" ->
     exists evs, trace w' = trace w ++ evs
       /\ Forall (fun e => is_qa_event e = false) evs
       /\ (r = Ret tt -> exists evs0, evs = evs0 ++ [upload_prompt]))
  /\ (forall f, file_uploader_value env = Some f -> PdfReader f = Returns [] ->
        main env w =
        (Ret tt,
         {| session_state :=
              <["document_name" := name f]>
                (<["document_text" := ""]> (initialised (session_state w)));
            trace := trace w ++ main_header ++ upload_events f "" ++ [upload_prompt] |})
        /\ In (UI (st_success ("✅ Document '" +:+ name f +:+ "' processed successfully!")))
              (upload_events f "")).
Proof.
  split.
  - intros r w' Hmain Hd. rewrite main_split in Hmain.
    destruct (before_qa_no_qa_event env w) as (evs & E & F).
    destruct (before_qa env w) as [[[]|e|] w1]; cbn [snd] in E.
    + assert (Hs : session_state w' = session_state w1).
      { rewrite <- (keeps_qa_section env w1). by rewrite Hmain. }
      rewrite Hs in Hd. rewrite (qa_section_run_empty _ _ Hd) in Hmain.
      injection Hmain as <- <-. exists (evs ++ [upload_prompt]). cbn [after trace].
      rewrite E, app_assoc. split; [done|]. split; [|eauto].
      apply Forall_app. split; [done|]. by repeat constructor.
    + injection Hmain as <- <-. exists evs. by repeat split.
    + injection Hmain as <- <-. exists evs. by repeat split.
  - intros f Hf Hp.
    assert (E : extraction f = Returns "") by (unfold extraction; by rewrite Hp).
    split; [|unfold upload_events; do 2 right; by left].
    rewrite main_split, before_qa_run, Hf, (on_upload_run_ok _ _ _ E).
    rewrite qa_section_run_empty.
    + unfold after, at_upload. cbn [session_state trace].
      by rewrite <- !app_assoc.
    + cbn [session_state]. apply upload_lookups.
Qed.

Lemma empty_document_hides_qa_witness :
  main empty_upload_env fresh =
  (Ret tt,
   {| session_state :=
        <["document_name" := "empty.pdf"]> (<["document_text" := ""]> (initialised ∅));
      trace := main_header ++ upload_events empty_pdf "" ++ [upload_prompt] |})
  /\ In (UI (st_success "✅ Document 'empty.pdf' processed successfully!"))
        (upload_events empty_pdf "").
Proof.
  apply (proj2 (empty_document_hides_qa empty_upload_env fresh) empty_pdf);
    reflexivity.
Defined.

(** *** Startup *)

(** C7: when [get_api_key] returns [None] at startup, the script shows the
    missing-credential error and stops; [main] is not entered and the
    session is untouched. *)
Theorem script_halts_without_key env w :
  fst (get_api_key env w) = Ret None ->
  script env w =
    (Stop, after w (Enter_get_api_key :: secrets_debug env ++ [missing_key_notice]))
  /\ ~ In Enter_main (Enter_get_api_key :: secrets_debug env ++ [missing_key_notice]).
Proof.
  rewrite get_api_key_run. cbn [fst]. intros Hk.
  assert (first_truthy (credential_sources env) = None) as Hnone by congruence.
  clear Hk. split.
  - unfold script, bind at 1. rewrite get_api_key_run, Hnone. cbn [truthy_opt negb].
    unfold bind at 1. unfold bind at 1. rewrite st_run. unfold st_stop.
    by rewrite after_after.
  - unfold secrets_debug, missing_key_notice.
    destruct (secrets_getitem env KEY); cbn; intros H;
      repeat (destruct H as [H|H]; [discriminate H|]); exact H.
Qed.

Lemma script_halts_without_key_witness :
  script unconfigured_env fresh =
    (Stop,
     after fresh [Enter_get_api_key;
                  UI (st_write "Debug: Secrets error: No secrets files found.");
                  missing_key_notice])
  /\ ~ In Enter_main
         [Enter_get_api_key;
          UI (st_write "Debug: Secrets error: No secrets files found.");
          missing_key_notice].
Proof.
  apply (script_halts_without_key unconfigured_env fresh). reflexivity.
Defined.

(** * Further properties of the script *)

(** ** Run equations *)

Lemma query_claude_run env d q w :
  query_claude env d q w =
  (Ret (query_answer env d q),
   after w (query_prelude env d q ++ query_requests env d q)).
Proof.
  unfold query_answer, query_requests.
  destruct (Anthropic env (resolved_key env)) as [c|e] eqn:E1.
  - destruct (messages_create env c (request d q)) as [resp|e] eqn:E2.
    + by rewrite (query_claude_run_response _ _ _ _ _ _ E1 E2).
    + by rewrite (query_claude_run_create_raises _ _ _ _ _ _ E1 E2).
  - by rewrite (query_claude_run_no_client _ _ _ _ _ E1), app_nil_r.
Qed.

Lemma on_ask_run env q w d :
  session_state w !! "document_text" = Some d ->
  on_ask env q w = (Ret tt, after w (ask_events env d q)).
Proof.
  intros Hd. unfold on_ask, ask_events. destruct (truthy q); [|reflexivity].
  rewrite (bind_run_ret _ _ _ _ _ (st_run _ _)).
  unfold try_except, bind at 1, session_get.
  cbn [after session_state]. rewrite Hd.
  unfold bind at 1. fold (after w [UI (st_spinner "Getting answer from Claude...")]).
  rewrite query_claude_run.
  rewrite (bind_run_ret _ _ _ _ _ (st_run _ _)). rewrite st_run.
  rewrite !after_after. do 2 f_equal. cbn [app]. f_equal.
  by rewrite <- !app_assoc.
Qed.

Lemma qa_section_run env w d :
  session_state w !! "document_text" = Some d ->
  qa_section env w = (Ret tt, after w (qa_events env d)).
Proof.
  intros Hd. unfold qa_events.
  destruct (decide (d = "")) as [->|Hne].
  - by rewrite (qa_section_run_empty _ _ Hd).
  - rewrite (qa_section_run_loaded _ _ _ Hd Hne), (truthy_nonempty _ Hne).
    destruct (button_value env).
    + rewrite (on_ask_run _ _ _ d); [|exact Hd]. by rewrite after_after.
    + by rewrite app_nil_r.
Qed.

Lemma with_default_lookup_same k s :
  with_default k s !! k = Some (default "" (s !! k)).
Proof.
  unfold with_default. case_bool_decide as H.
  - destruct H as [v ->]. reflexivity.
  - rewrite lookup_insert_eq.
    destruct (s !! k) eqn:E; [|reflexivity]. exfalso. apply H. eauto.
Qed.

Lemma with_default_lookup_other k k' s :
  k <> k' -> with_default k s !! k' = s !! k'.
Proof.
  intros Hne. unfold with_default. case_bool_decide; [reflexivity|].
  by rewrite lookup_insert_ne.
Qed.

Lemma with_default_present k s v : s !! k = Some v -> with_default k s = s.
Proof.
  intros H. unfold with_default. rewrite bool_decide_eq_true_2; [done|]. eauto.
Qed.

Lemma initialised_lookup_text s :
  initialised s !! "document_text" = Some (default "" (s !! "document_text")).
Proof.
  unfold initialised.
  rewrite with_default_lookup_other; [|done]. apply with_default_lookup_same.
Qed.

Lemma initialised_lookup_name s :
  initialised s !! "document_name" = Some (default "" (s !! "document_name")).
Proof.
  unfold initialised. rewrite with_default_lookup_same.
  by rewrite with_default_lookup_other.
Qed.

Lemma initialised_lookup_other s k :
  k <> "document_text" -> k <> "document_name" -> initialised s !! k = s !! k.
Proof.
  intros H1 H2. unfold initialised. by rewrite !with_default_lookup_other.
Qed.

Lemma initialised_present s d n :
  s !! "document_text" = Some d -> s !! "document_name" = Some n ->
  initialised s = s.
Proof.
  intros Hd Hn. unfold initialised.
  rewrite (with_default_present "document_text" s d Hd).
  by rewrite (with_default_present "document_name" s n Hn).
Qed.

(** The whole of [main], by what the uploader holds. *)
Lemma main_run_no_file env w :
  file_uploader_value env = None ->
  main env w =
  (Ret tt,
   after (at_upload w)
         (qa_events env (default "" (session_state w !! "document_text")))).
Proof.
  intros Hf. rewrite main_split, before_qa_run, Hf.
  apply qa_section_run. cbn [at_upload session_state]. apply initialised_lookup_text.
Qed.

Lemma main_run_uploaded env w f t :
  file_uploader_value env = Some f -> extraction f = Returns t ->
  main env w =
  (Ret tt,
   {| session_state :=
        <["document_name" := name f]>
          (<["document_text" := t]> (initialised (session_state w)));
      trace := trace w ++ main_header ++ upload_events f t ++ qa_events env t |}).
Proof.
  intros Hf E. rewrite main_split, before_qa_run, Hf, (on_upload_run_ok _ _ _ E).
  rewrite (qa_section_run _ _ t).
  - unfold after, at_upload. cbn [session_state trace]. by rewrite <- !app_assoc.
  - cbn [session_state]. apply upload_lookups.
Qed.

Lemma main_run_upload_fails env w f e :
  file_uploader_value env = Some f -> extraction f = Throws e ->
  main env w =
  (Raise e,
   after (at_upload w) [UI (st_spinner "Processing document...");
                        Enter_extract_text_from_pdf (name f)]).
Proof.
  intros Hf E. by rewrite main_split, before_qa_run, Hf, (on_upload_run_fail _ _ _ E).
Qed.

(** The [__main__] block, by what the resolver finds. *)
Lemma script_key_found env w k :
  first_truthy (credential_sources env) = Some k ->
  script env w = main env (after w (Enter_get_api_key :: secrets_debug env)).
Proof.
  intros Hk. unfold script, bind at 1. rewrite get_api_key_run, Hk.
  cbn [truthy_opt]. rewrite (first_truthy_truthy _ _ Hk). reflexivity.
Qed.

Lemma script_key_missing env w :
  first_truthy (credential_sources env) = None ->
  script env w =
  (Stop, after w (Enter_get_api_key :: secrets_debug env ++ [missing_key_notice])).
Proof.
  intros Hk. unfold script, bind at 1. rewrite get_api_key_run, Hk.
  cbn [truthy_opt negb].
  unfold bind at 1. unfold bind at 1. rewrite st_run. unfold st_stop.
  by rewrite after_after.
Qed.

(** ** Credential resolution, continued *)

(** X1: a value in the secrets store that Python takes for true (a
    non-empty string in particular) wins: [get_api_key] returns the stored
    object itself, whatever the environment variable holds, and writes no
    diagnostic to the page. *)
Theorem get_api_key_prefers_secrets env w k :
  secrets_getitem env KEY = Returns k -> truthy_obj k = true ->
  get_api_key env w = (Ret (Some k), after w [Enter_get_api_key]).
Proof.
  intros Hs Hk. rewrite get_api_key_run.
  unfold credential_sources, secrets_value, secrets_debug. rewrite Hs.
  cbn [first_truthy truthy_opt]. by rewrite Hk.
Qed.

Lemma get_api_key_prefers_secrets_witness :
  environ cloud_env !! KEY = Some "sk-ant-local"
  /\ get_api_key cloud_env fresh
     = (Ret (Some (PyStr "sk-ant-cloud")), after fresh [Enter_get_api_key]).
Proof.
  split; [reflexivity|].
  apply (get_api_key_prefers_secrets cloud_env fresh (PyStr "sk-ant-cloud"));
    reflexivity.
Defined.

(** ** Text extraction, continued *)

Lemma string_app_length (a b : string) : len (a +:+ b) = len a + len b.
Proof.
  induction a as [|x a IH]; [reflexivity|].
  change (S (len (a +:+ b)) = S (len a + len b)). by rewrite IH.
Qed.

Lemma pages_text_first_failure good ts bad rest e text :
  Forall2 (fun p t => extract_text p = Returns t) good ts ->
  extract_text bad = Throws e ->
  pages_text (good ++ bad :: rest) text = Throws e.
Proof.
  intros H Hbad. revert text.
  induction H as [|p t good ts Hp _ IH]; intros text; simpl.
  - by rewrite Hbad.
  - rewrite Hp. apply IH.
Qed.

(** X2: extraction is all or nothing.  When the parser raises, or when
    some page raises after any number of pages that extracted, the
    function raises that exception: the text gathered so far is lost and
    the pages after the failing one are not looked at. *)
Theorem extract_text_first_failure f w :
  (forall e, PdfReader f = Throws e ->
     extract_text_from_pdf f w
       = (Raise e, after w [Enter_extract_text_from_pdf (name f)]))
  /\ (forall good ts bad rest e,
        PdfReader f = Returns (good ++ bad :: rest) ->
        Forall2 (fun p t => extract_text p = Returns t) good ts ->
        extract_text bad = Throws e ->
        extract_text_from_pdf f w
          = (Raise e, after w [Enter_extract_text_from_pdf (name f)])).
Proof.
  split.
  - intros e Hf. rewrite extract_text_from_pdf_run. unfold extraction. by rewrite Hf.
  - intros good ts bad rest e Hf Hgood Hbad.
    rewrite extract_text_from_pdf_run. unfold extraction. rewrite Hf.
    by rewrite (pages_text_first_failure _ _ _ _ _ _ Hgood Hbad).
Qed.

Lemma extract_text_first_failure_witness :
  extract_text_from_pdf damaged_pdf fresh
  = (Raise (Exn "PdfReadError" "Invalid page object"),
     after fresh [Enter_extract_text_from_pdf "damaged.pdf"]).
Proof.
  apply (proj2 (extract_text_first_failure damaged_pdf fresh)
           [text_page "Hello"] ["Hello"]
           {| extract_text := Throws (Exn "PdfReadError" "Invalid page object") |}
           [text_page "World"]).
  - reflexivity.
  - repeat constructor.
  - reflexivity.
Defined.

Lemma page_lines_length ts : len (page_lines ts) = total_len ts + length ts.
Proof.
  unfold total_len. induction ts as [|t rest IH]; [reflexivity|].
  change (page_lines (t :: rest)) with (t +:+ LF +:+ page_lines rest).
  rewrite !string_app_length, IH. cbn [map length].
  change (list_sum (len t :: map len rest)) with (len t + list_sum (map len rest)).
  change (len LF) with 1. lia.
Qed.

Lemma split_aux_nil_app cur k :
  match cur with
  | [] => k
  | _ :: _ => string_of_list_ascii (rev cur) :: k
  end
  = split_aux "" cur ++ k.
Proof. by destruct cur. Qed.

(** A whitespace character ends the word being read and starts afresh. *)
Lemma split_aux_space a c s cur :
  is_space c = true ->
  split_aux (a +:+ String c s) cur = split_aux a cur ++ split_aux s [].
Proof.
  intros Hc. revert cur. induction a as [|x a IH]; intros cur.
  - change ("" +:+ String c s) with (String c s). cbn [split_aux]. rewrite Hc.
    apply split_aux_nil_app.
  - change (String x a +:+ String c s) with (String x (a +:+ String c s)).
    cbn [split_aux]. destruct (is_space x).
    + rewrite IH. destruct cur; reflexivity.
    + apply IH.
Qed.

Lemma split_page_lines ts : split (page_lines ts) = page_words ts.
Proof.
  unfold page_words, split. induction ts as [|t rest IH]; [reflexivity|].
  change (page_lines (t :: rest))
    with (t +:+ String (ascii_of_nat 10) (page_lines rest)).
  rewrite split_aux_space; [|reflexivity].
  cbn [map List.concat]. by rewrite IH.
Qed.

(** X3: for a document whose pages all extract, the character count of
    the extracted text is the characters of all pages plus one per page,
    and its words are the words of the pages in page order: the newline
    after a page never joins two words and never adds one. *)
Theorem extract_text_counts f pages ts w :
  PdfReader f = Returns pages ->
  Forall2 (fun p t => extract_text p = Returns t) pages ts ->
  exists text,
    fst (extract_text_from_pdf f w) = Ret text
    /\ len text = total_len ts + length ts
    /\ split text = page_words ts.
Proof.
  intros Hf Hp. exists (page_lines ts).
  rewrite extract_text_from_pdf_run. unfold extraction.
  rewrite Hf, (pages_text_lines _ _ _ Hp). cbn [fst outcome_of].
  split; [reflexivity|]. split.
  - apply page_lines_length.
  - apply split_page_lines.
Qed.

Lemma extract_text_counts_witness :
  exists text,
    fst (extract_text_from_pdf hello_world_pdf fresh) = Ret text
    /\ len text = 10 + 2
    /\ split text = ["Hello"; "World"].
Proof.
  apply (extract_text_counts hello_world_pdf
           [text_page "Hello"; text_page "World"] ["Hello"; "World"] fresh).
  - reflexivity.
  - repeat constructor.
Defined.

Lemma pages_text_extends pages text t :
  pages_text pages text = Returns t -> exists rest, t = text +:+ rest.
Proof.
  revert text. induction pages as [|[[t0|e]] pages IH]; intros text; simpl.
  - intros [= <-]. exists "". by rewrite string_app_nil_r.
  - intros H. destruct (IH _ H) as [rest ->].
    exists (t0 +:+ LF +:+ rest). by rewrite !string_app_assoc.
  - discriminate.
Qed.

(** X4: a document that parses extracts to the empty string only when it
    has no pages: every page, even one without text, contributes its
    newline. *)
Theorem extract_text_empty_iff_no_pages f pages w :
  PdfReader f = Returns pages ->
  (fst (extract_text_from_pdf f w) = Ret "" <-> pages = []).
Proof.
  intros Hf. rewrite extract_text_from_pdf_run. unfold extraction. rewrite Hf.
  cbn [fst]. split.
  - destruct pages as [|[[t0|e]] rest]; [done| |]; simpl; [|discriminate].
    change ("" +:+ (t0 +:+ LF)) with (t0 +:+ LF).
    destruct (pages_text rest (t0 +:+ LF)) as [t|e] eqn:E; simpl; [|discriminate].
    intros [= ->]. destruct (pages_text_extends _ _ _ E) as [r Hr].
    apply (f_equal len) in Hr. rewrite !string_app_length in Hr.
    change (len LF) with 1 in Hr. change (len "") with 0 in Hr. lia.
  - by intros ->.
Qed.

Lemma extract_text_empty_iff_no_pages_witness :
  fst (extract_text_from_pdf empty_pdf fresh) = Ret "" <-> @nil Page = [].
Proof.
  apply (extract_text_empty_iff_no_pages empty_pdf [] fresh). reflexivity.
Defined.

Lemma extract_text_ret f w t :
  fst (extract_text_from_pdf f w) = Ret t -> extraction f = Returns t.
Proof.
  rewrite extract_text_from_pdf_run. cbn [fst].
  destruct (extraction f); simpl; congruence.
Qed.

Lemma extract_text_raise f w e :
  fst (extract_text_from_pdf f w) = Raise e -> extraction f = Throws e.
Proof.
  rewrite extract_text_from_pdf_run. cbn [fst].
  destruct (extraction f); simpl; congruence.
Qed.

Lemma extraction_of_pages_nonempty f p ps t :
  PdfReader f = Returns (p :: ps) -> extraction f = Returns t -> t <> "".
Proof.
  unfold extraction. intros ->. destruct p as [[t0|e]]; simpl; [|discriminate].
  change ("" +:+ (t0 +:+ LF)) with (t0 +:+ LF).
  intros E ->. destruct (pages_text_extends _ _ _ E) as [r Hr].
  apply (f_equal len) in Hr. rewrite !string_app_length in Hr.
  change (len LF) with 1 in Hr. change (len "") with 0 in Hr. lia.
Qed.

(** ** The session orchestrator, continued *)

(** X5: whenever the uploaded document has at least one page and
    extracts, the run shows the question form after the upload report,
    even if no page has any text. *)
Theorem uploaded_pages_open_qa_form env w f p ps t :
  file_uploader_value env = Some f ->
  PdfReader f = Returns (p :: ps) ->
  fst (extract_text_from_pdf f w) = Ret t ->
  exists w' evs,
    main env w = (Ret tt, w')
    /\ trace w' = trace w ++ main_header ++ upload_events f t ++ qa_form ++ evs.
Proof.
  intros Hf Hp Ht. apply extract_text_ret in Ht.
  pose proof (extraction_of_pages_nonempty _ _ _ _ Hp Ht) as Hne.
  rewrite (main_run_uploaded _ _ _ _ Hf Ht).
  unfold qa_events. rewrite (truthy_nonempty _ Hne).
  eexists _, _. split; [reflexivity|]. cbn [trace]. reflexivity.
Qed.

Lemma uploaded_pages_open_qa_form_witness :
  exists w' evs,
    main scanned_upload_env fresh = (Ret tt, w')
    /\ trace w' = trace fresh ++ main_header
                  ++ upload_events scanned_pdf (newlines 3) ++ qa_form ++ evs.
Proof.
  apply (uploaded_pages_open_qa_form scanned_upload_env fresh scanned_pdf
           (text_page "") [text_page ""; text_page ""] (newlines 3));
    reflexivity.
Defined.

Lemma slice_to_prefix n s :
  len (slice_to n s) = Nat.min n (len s) /\ exists rest, s = slice_to n s +:+ rest.
Proof.
  unfold slice_to. revert s. induction n as [|n IH]; intros s.
  - destruct s; simpl; split; try reflexivity; by eexists.
  - destruct s as [|c s]; [simpl; split; [reflexivity | by exists ""]|].
    destruct (IH s) as [Hlen [rest Hrest]].
    change (substring 0 (S n) (String c s)) with (String c (substring 0 n s)).
    split.
    + change (S (len (substring 0 n s)) = S (Nat.min n (len s))). by rewrite Hlen.
    + exists rest.
      change (String c s = String c (substring 0 n s +:+ rest)). by rewrite <- Hrest.
Qed.

(** X6: the preview shown after an upload is the beginning of the
    extracted text, cut after 500 characters; a shorter text is shown
    whole. *)
Theorem upload_preview_is_prefix f w t :
  fst (extract_text_from_pdf f w) = Ret t ->
  exists preview rest,
    In (UI (st_text_area "First 500 characters:" preview)) (trace (snd (on_upload f w)))
    /\ t = preview +:+ rest
    /\ len preview = Nat.min 500 (len t).
Proof.
  intros Ht. apply extract_text_ret in Ht.
  destruct (slice_to_prefix 500 t) as [Hlen [rest Hrest]].
  exists (slice_to 500 t), rest. split; [|by split].
  rewrite (on_upload_run_ok _ _ _ Ht). cbn [snd trace].
  apply in_or_app. right. unfold upload_events. do 5 right. by left.
Qed.

Lemma upload_preview_is_prefix_witness :
  exists preview rest,
    In (UI (st_text_area "First 500 characters:" preview))
       (trace (snd (on_upload hello_world_pdf fresh)))
    /\ hello_world_text = preview +:+ rest
    /\ len preview = Nat.min 500 (len hello_world_text).
Proof.
  apply (upload_preview_is_prefix hello_world_pdf fresh hello_world_text).
  reflexivity.
Defined.

(** X7: [main] ends the way extraction ends.  With no file in the
    uploader it returns; with a file it returns when extraction returns
    and raises extraction's exception otherwise.  Nothing else in [main]
    raises, and [main] never stops the script. *)
Theorem main_outcome env w :
  (file_uploader_value env = None -> fst (main env w) = Ret tt)
  /\ (forall f, file_uploader_value env = Some f ->
        fst (main env w) =
        match fst (extract_text_from_pdf f w) with
        | Ret _ => Ret tt
        | Raise e => Raise e
        | Stop => Stop
        end).
Proof.
  split.
  - intros Hf. by rewrite (main_run_no_file _ _ Hf).
  - intros f Hf. rewrite extract_text_from_pdf_run. cbn [fst].
    destruct (extraction f) as [t|e] eqn:E; cbn [outcome_of].
    + by rewrite (main_run_uploaded _ _ _ _ Hf E).
    + by rewrite (main_run_upload_fails _ _ _ _ Hf E).
Qed.

Lemma main_outcome_witness :
  fst (main no_file_env fresh) = Ret tt
  /\ fst (main (with_widgets local_env (Some damaged_pdf) "" false) fresh)
     = Raise (Exn "PdfReadError" "Invalid page object").
Proof.
  split.
  - apply (proj1 (main_outcome no_file_env fresh)). reflexivity.
  - apply (proj2 (main_outcome (with_widgets local_env (Some damaged_pdf) "" false) fresh)
             damaged_pdf).
    reflexivity.
Defined.

Lemma secrets_debug_no_error env :
  Forall (fun e => is_st_error e = false) (secrets_debug env).
Proof. unfold secrets_debug. destruct (secrets_getitem env KEY); by repeat constructor. Qed.

Lemma qa_events_no_error env d :
  Forall (fun e => is_st_error e = false) (qa_events env d).
Proof.
  unfold qa_events, ask_events, query_prelude, query_requests.
  destruct (truthy d); [|by repeat constructor].
  apply Forall_app. split; [by repeat constructor|].
  destruct (button_value env); [|constructor].
  destruct (truthy (text_input_value env)); [|by repeat constructor].
  do 3 (constructor; [reflexivity|]).
  repeat (apply Forall_app; split); try apply secrets_debug_no_error.
  - destruct (Anthropic env (resolved_key env)); by repeat constructor.
  - by repeat constructor.
Qed.

(** X8: a run of [main] never shows an error box.  The handler of lines
    105-107 is never reached: [query_claude] does not raise and the session
    key it reads was set at the top of [main]; a failing extraction raises
    out of [main] without a message of its own. *)
Theorem main_never_shows_error env :
  emits (fun e => is_st_error e = false) (main env).
Proof.
  intros w. destruct (file_uploader_value env) as [f|] eqn:Hf.
  - destruct (extraction f) as [t|e] eqn:E.
    + rewrite (main_run_uploaded _ _ _ _ Hf E). eexists. cbn [snd trace].
      split; [reflexivity|].
      repeat (apply Forall_app; split); try apply qa_events_no_error;
        by repeat constructor.
    + rewrite (main_run_upload_fails _ _ _ _ Hf E). eexists. cbn [snd trace after at_upload].
      rewrite <- app_assoc. split; [reflexivity|].
      apply Forall_app. split; by repeat constructor.
  - rewrite (main_run_no_file _ _ Hf). eexists. cbn [snd trace after at_upload].
    rewrite <- app_assoc. split; [reflexivity|].
    apply Forall_app. split; [by repeat constructor | apply qa_events_no_error].
Qed.

(** X9: when the endpoint raises, the handler of the button still reports
    success: it shows the banner ["🎯 Answer:"] and under it the string
    ["Error querying Claude: "] followed by the exception's message, and
    returns. *)
Theorem failed_query_shown_as_answer env w d q c e :
  session_state w !! "document_text" = Some d ->
  q <> "" ->
  Anthropic env (resolved_key env) = Returns c ->
  messages_create env c (request d q) = Throws e ->
  on_ask env q w =
  (Ret tt,
   after w (UI (st_spinner "Getting answer from Claude...")
            :: query_prelude env d q
            ++ [ Create c (request d q);
                 UI (st_success "🎯 Answer:");
                 UI (st_write ("Error querying Claude: " +:+ str e)) ])).
Proof.
  intros Hd Hq E1 E2. rewrite (on_ask_run _ _ _ _ Hd).
  unfold ask_events, query_requests, query_answer.
  by rewrite (truthy_nonempty _ Hq), E1, E2.
Qed.

Lemma failed_query_shown_as_answer_witness :
  on_ask offline_env "What is this about?" sky_session =
  (Ret tt,
   after sky_session
     (UI (st_spinner "Getting answer from Claude...")
      :: query_prelude offline_env ("The sky is blue." +:+ LF) "What is this about?"
      ++ [ Create {| api_key := Some (PyStr "sk-ant-local") |}
             (request ("The sky is blue." +:+ LF) "What is this about?");
           UI (st_success "🎯 Answer:");
           UI (st_write "Error querying Claude: Connection error.") ])).
Proof.
  apply (failed_query_shown_as_answer offline_env sky_session
           ("The sky is blue." +:+ LF) "What is this about?"
           {| api_key := Some (PyStr "sk-ant-local") |}
           (Exn "APIConnectionError" "Connection error.")).
  - vm_compute. reflexivity.
  - discriminate.
  - reflexivity.
  - reflexivity.
Defined.

(** X10: when [get_api_key] finds a key at startup, the script shows no
    missing-credential error and goes on to [main]: the run is that of
    [main] in the world the resolver left. *)
Theorem script_runs_main_with_key env w k :
  fst (get_api_key env w) = Ret (Some k) ->
  script env w = main env (after w (Enter_get_api_key :: secrets_debug env)).
Proof.
  rewrite get_api_key_run. cbn [fst]. intros Hk.
  apply (script_key_found env w k). congruence.
Qed.

Lemma script_runs_main_with_key_witness :
  script local_env fresh
  = main local_env
      (after fresh [Enter_get_api_key;
                    UI (st_write "Debug: Secrets error: No secrets files found.")]).
Proof.
  apply (script_runs_main_with_key local_env fresh (PyStr "sk-ant-local")). reflexivity.
Defined.

Lemma upload_overwrites f t (s : gmap string string) :
  let s' := <["document_name" := name f]> (<["document_text" := t]> s) in
  <["document_name" := name f]> (<["document_text" := t]> (initialised s')) = s'.
Proof.
  cbn zeta.
  rewrite (initialised_present _ t (name f)); [|apply upload_lookups..].
  apply map_eq. intros k.
  destruct (decide (k = "document_name")) as [->|Hn].
  - by rewrite !lookup_insert_eq.
  - rewrite !(lookup_insert_ne _ "document_name"); [|done..].
    destruct (decide (k = "document_text")) as [->|Ht].
    + by rewrite !lookup_insert_eq.
    + by rewrite !lookup_insert_ne.
Qed.

Lemma initialised_idempotent s : initialised (initialised s) = initialised s.
Proof.
  apply (initialised_present _ _ _ (initialised_lookup_text s) (initialised_lookup_name s)).
Qed.

(** X11: running [main] again with the same widget values leaves the
    session as the first run left it: the uploaded file is extracted again
    and the same pair is stored again, nothing accumulates. *)
Theorem main_rerun_keeps_session env w :
  session_state (snd (main env (snd (main env w))))
  = session_state (snd (main env w)).
Proof.
  destruct (file_uploader_value env) as [f|] eqn:Hf.
  - destruct (extraction f) as [t|e] eqn:E.
    + rewrite !(main_run_uploaded _ _ _ _ Hf E). cbn [snd session_state].
      apply upload_overwrites.
    + rewrite !(main_run_upload_fails _ _ _ _ Hf E). cbn [snd session_state after at_upload].
      apply initialised_idempotent.
  - rewrite !(main_run_no_file _ _ Hf). cbn [snd session_state after at_upload].
    apply initialised_idempotent.
Qed.

(** X12: a document stays loaded when the uploader is emptied.  With no
    file in the uploader, a session that holds a document keeps both
    fields, the form is shown, and a non-empty question is put to
    [query_claude] with the stored text. *)
Theorem session_survives_empty_uploader env w d n :
  file_uploader_value env = None ->
  session_state w !! "document_text" = Some d ->
  session_state w !! "document_name" = Some n ->
  session_state (snd (main env w)) = session_state w
  /\ (d <> "" -> button_value env = true -> text_input_value env <> "" ->
      In (Enter_query_claude d (text_input_value env)) (trace (snd (main env w)))).
Proof.
  intros Hf Hd Hn. rewrite (main_run_no_file _ _ Hf), Hd.
  change (default "" (Some d)) with d. cbn [snd].
  split.
  - cbn [after at_upload session_state]. by apply (initialised_present _ d n).
  - intros Hne Hb Hq. cbn [after trace].
    apply in_or_app. right. unfold qa_events, ask_events.
    rewrite (truthy_nonempty _ Hne), Hb, (truthy_nonempty _ Hq).
    apply in_or_app. right. right. left. reflexivity.
Qed.

Lemma session_survives_empty_uploader_witness :
  session_state (snd (main no_file_env sky_session)) = session_state sky_session
  /\ In (Enter_query_claude ("The sky is blue." +:+ LF) "What is this about?")
        (trace (snd (main no_file_env sky_session))).
Proof.
  destruct (session_survives_empty_uploader no_file_env sky_session
              ("The sky is blue." +:+ LF) "sky.pdf") as [Hs Hq].
  - reflexivity.
  - vm_compute. reflexivity.
  - vm_compute. reflexivity.
  - split; [exact Hs|]. apply Hq.
    + discriminate.
    + reflexivity.
    + discriminate.
Defined.

(** X13: the initialisation of lines 63-67 only fills in what is missing:
    afterwards both session keys exist, a key that was present keeps its
    value, a key that was absent holds the empty string, every other key
    is untouched, and nothing is shown. *)
Theorem init_session_fills_missing_keys w :
  exists w',
    init_session w = (Ret tt, w')
    /\ trace w' = trace w
    /\ session_state w' !! "document_text"
       = Some (default "" (session_state w !! "document_text"))
    /\ session_state w' !! "document_name"
       = Some (default "" (session_state w !! "document_name"))
    /\ forall k, k <> "document_text" -> k <> "document_name" ->
                 session_state w' !! k = session_state w !! k.
Proof.
  eexists. split; [apply init_session_run|]. cbn [trace session_state].
  split; [reflexivity|]. split; [apply initialised_lookup_text|].
  split; [apply initialised_lookup_name|]. apply initialised_lookup_other.
Qed.

Lemma init_session_fills_missing_keys_witness :
  exists w',
    init_session fresh = (Ret tt, w')
    /\ trace w' = []
    /\ session_state w' !! "document_text" = Some ""
    /\ session_state w' !! "document_name" = Some ""
    /\ forall k, k <> "document_text" -> k <> "document_name" ->
                 session_state w' !! k = session_state fresh !! k.
Proof. apply (init_session_fills_missing_keys fresh). Defined.

(** ** Requests and resolutions per run *)

Lemma requests_of_query_requests env d q :
  length (requests_of (query_requests env d q)) <= 1.
Proof.
  unfold query_requests. destruct (Anthropic env (resolved_key env)); simpl; lia.
Qed.

Lemma requests_of_qa_events env d :
  requests_of (qa_events env d) =
  if truthy d && button_value env && truthy (text_input_value env)
  then requests_of (query_requests env d (text_input_value env))
  else [].
Proof.
  unfold qa_events, ask_events.
  destruct (truthy d); [|reflexivity].
  rewrite requests_of_app. change (requests_of qa_form) with (@nil (Client * Request)).
  destruct (button_value env); [|reflexivity].
  destruct (truthy (text_input_value env)); [|reflexivity].
  cbn [andb app requests_of].
  rewrite !requests_of_app, requests_of_prelude. cbn [app requests_of].
  by rewrite app_nil_r.
Qed.

Lemma requests_of_upload_events f t : requests_of (upload_events f t) = [].
Proof. reflexivity. Qed.

(** X14: a run of [main] makes at most one request to the endpoint, and
    none when the button was not pressed or the question is empty. *)
Theorem main_at_most_one_request env w :
  exists evs,
    trace (snd (main env w)) = trace w ++ evs
    /\ length (requests_of evs) <= 1
    /\ (button_value env = false \/ text_input_value env = "" -> requests_of evs = []).
Proof.
  assert (Hqa : forall d,
             length (requests_of (qa_events env d)) <= 1
             /\ (button_value env = false \/ text_input_value env = "" ->
                 requests_of (qa_events env d) = [])).
  { intros d. rewrite requests_of_qa_events. split.
    - destruct (truthy d && button_value env && truthy (text_input_value env));
        [apply requests_of_query_requests | simpl; lia].
    - intros [-> | ->]; [by rewrite andb_false_r | by rewrite andb_false_r]. }
  destruct (file_uploader_value env) as [f|] eqn:Hf.
  - destruct (extraction f) as [t|e] eqn:E.
    + rewrite (main_run_uploaded _ _ _ _ Hf E). eexists. cbn [snd trace].
      split; [reflexivity|].
      rewrite !requests_of_app, requests_of_upload_events.
      change (requests_of main_header) with (@nil (Client * Request)).
      cbn [app]. apply Hqa.
    + rewrite (main_run_upload_fails _ _ _ _ Hf E). eexists.
      cbn [snd trace after at_upload]. rewrite <- app_assoc.
      split; [reflexivity|]. rewrite requests_of_app.
      change (requests_of main_header) with (@nil (Client * Request)).
      cbn. split; [lia|done].
  - rewrite (main_run_no_file _ _ Hf). eexists.
    cbn [snd trace after at_upload]. rewrite <- app_assoc.
    split; [reflexivity|]. rewrite requests_of_app.
    change (requests_of main_header) with (@nil (Client * Request)).
    cbn [app]. apply Hqa.
Qed.

Lemma main_at_most_one_request_witness :
  exists evs,
    trace (snd (main empty_question_env fresh)) = trace fresh ++ evs
    /\ length (requests_of evs) <= 1
    /\ requests_of evs = [].
Proof.
  destruct (main_at_most_one_request empty_question_env fresh) as (evs & Ht & Hle & Hnone).
  exists evs. split; [exact Ht|]. split; [exact Hle|].
  apply Hnone. right. reflexivity.
Defined.

(** X15: the caller cannot tell a failure from an answer.  A call that
    fails with exception [e] and a call whose model answers with the text
    ["Error querying Claude: "] followed by [e]'s message return the same
    string. *)
Theorem failure_reads_like_answer env1 env2 d q w1 w2 c1 c2 e resp rest :
  Anthropic env1 (resolved_key env1) = Returns c1 ->
  messages_create env1 c1 (request d q) = Throws e ->
  Anthropic env2 (resolved_key env2) = Returns c2 ->
  messages_create env2 c2 (request d q) = Returns resp ->
  response_content resp = TextBlock ("Error querying Claude: " +:+ str e) :: rest ->
  fst (query_claude env1 d q w1) = fst (query_claude env2 d q w2).
Proof.
  intros E1 F1 E2 F2 Hc. rewrite !query_claude_run. cbn [fst].
  unfold query_answer. by rewrite E1, F1, E2, F2, Hc.
Qed.

Lemma failure_reads_like_answer_witness :
  fst (query_claude offline_env "The sky is blue." "What is this about?" fresh)
  = fst (query_claude echo_env "The sky is blue." "What is this about?" fresh).
Proof.
  apply (failure_reads_like_answer offline_env echo_env
           "The sky is blue." "What is this about?" fresh fresh
           {| api_key := Some (PyStr "sk-ant-local") |} {| api_key := Some (PyStr "sk-ant-local") |}
           (Exn "APIConnectionError" "Connection error.")
           {| response_content := [TextBlock "Error querying Claude: Connection error."] |}
           []); reflexivity.
Defined.

Lemma count_events_app p evs1 evs2 :
  count_events p (evs1 ++ evs2) = count_events p evs1 + count_events p evs2.
Proof.
  unfold count_events. induction evs1 as [|e evs1 IH]; [reflexivity|].
  simpl. destruct (p e); simpl; by rewrite IH.
Qed.

Lemma count_events_cons p e evs :
  count_events p (e :: evs) = (if p e then 1 else 0) + count_events p evs.
Proof. unfold count_events. simpl. by destruct (p e). Qed.

Lemma count_events_nil p : count_events p [] = 0.
Proof. reflexivity. Qed.

Lemma count_secrets_debug env p :
  (forall s, p (UI (st_write s)) = false) -> count_events p (secrets_debug env) = 0.
Proof.
  intros Hp. unfold secrets_debug, count_events.
  destruct (secrets_getitem env KEY); simpl; [reflexivity|]. by rewrite Hp.
Qed.

Lemma count_query_requests env d q p :
  (forall c r, p (Create c r) = false) -> count_events p (query_requests env d q) = 0.
Proof.
  intros Hp. unfold query_requests, count_events.
  destruct (Anthropic env (resolved_key env)); simpl; [|reflexivity]. by rewrite Hp.
Qed.

(** Count through a list built from conses and appends. *)
Ltac count_events :=
  repeat (rewrite ?count_events_cons, ?count_events_app, ?count_events_nil,
            ?count_secrets_debug, ?count_query_requests by done;
          cbn [is_enter_get_api_key is_enter_query_claude]).

(** In the question section the resolver is entered once per entry into
    [query_claude]. *)
Lemma qa_events_resolutions env d :
  count_events is_enter_get_api_key (qa_events env d)
  = count_events is_enter_query_claude (qa_events env d).
Proof.
  unfold qa_events, ask_events, query_prelude, qa_form, upload_prompt, omission_notice.
  destruct (truthy d); [|reflexivity].
  destruct (button_value env); [|reflexivity].
  destruct (truthy (text_input_value env)); [|reflexivity].
  count_events. reflexivity.
Qed.

Lemma main_resolutions env w :
  exists evs,
    trace (snd (main env w)) = trace w ++ evs
    /\ count_events is_enter_get_api_key evs
       = count_events is_enter_query_claude evs.
Proof.
  destruct (file_uploader_value env) as [f|] eqn:Hf.
  - destruct (extraction f) as [t|e] eqn:E.
    + rewrite (main_run_uploaded _ _ _ _ Hf E). eexists. cbn [snd trace].
      split; [reflexivity|]. unfold main_header, upload_events.
      count_events. by rewrite qa_events_resolutions.
    + rewrite (main_run_upload_fails _ _ _ _ Hf E). eexists.
      cbn [snd trace after at_upload]. rewrite <- app_assoc.
      split; [reflexivity|]. reflexivity.
  - rewrite (main_run_no_file _ _ Hf). eexists.
    cbn [snd trace after at_upload]. rewrite <- app_assoc.
    split; [reflexivity|]. unfold main_header.
    count_events. by rewrite qa_events_resolutions.
Qed.

(** X16: the credential is resolved afresh at every use and never kept:
    in a run of the script, [get_api_key] is entered once at startup and
    once more for each entry into [query_claude]. *)
Theorem script_resolves_key_per_use env w :
  exists evs,
    trace (snd (script env w)) = trace w ++ evs
    /\ count_events is_enter_get_api_key evs
       = 1 + count_events is_enter_query_claude evs.
Proof.
  destruct (first_truthy (credential_sources env)) as [k|] eqn:Hk.
  - rewrite (script_key_found env w k Hk).
    destruct (main_resolutions env (after w (Enter_get_api_key :: secrets_debug env)))
      as (evs & Ht & Hc).
    exists ((Enter_get_api_key :: secrets_debug env) ++ evs).
    rewrite Ht. cbn [after trace]. rewrite <- app_assoc. split; [reflexivity|].
    count_events. by rewrite Hc.
  - rewrite (script_key_missing env w Hk). eexists. cbn [snd after trace].
    split; [reflexivity|]. unfold missing_key_notice.
    count_events. reflexivity.
Qed.

(** ** The displayed statistics *)

Lemma blank_cons c s : blank (String c s) = is_space c && blank s.
Proof. reflexivity. Qed.

Lemma split_aux_nil_iff s cur :
  split_aux s cur = [] <-> cur = [] /\ blank s = true.
Proof.
  revert cur. induction s as [|c s IH]; intros cur.
  - cbn [split_aux]. destruct cur; split; try done. by intros [? _].
  - rewrite blank_cons. cbn [split_aux]. destruct (is_space c); cbn [andb].
    + destruct cur as [|x cur].
      * rewrite (IH []). tauto.
      * split; [discriminate | by intros [? _]].
    + rewrite IH. split; [by intros [? _] | by intros [_ ?]].
Qed.

Lemma split_nil_iff_blank t : split t = [] <-> blank t = true.
Proof.
  unfold split. rewrite split_aux_nil_iff. split; [by intros [_ ?] | by split].
Qed.

Lemma blank_app a b : blank (a +:+ b) = blank a && blank b.
Proof.
  induction a as [|c a IH]; [reflexivity|].
  change (String c a +:+ b) with (String c (a +:+ b)).
  by rewrite !blank_cons, IH, andb_assoc.
Qed.

Lemma blank_page_lines ts :
  blank (page_lines ts) = true <-> Forall (fun t => blank t = true) ts.
Proof.
  induction ts as [|t rest IH].
  - split; [constructor|reflexivity].
  - change (page_lines (t :: rest)) with (t +:+ LF +:+ page_lines rest).
    rewrite !blank_app. change (blank LF) with true. cbn [andb].
    rewrite andb_true_iff, IH. split.
    + intros [Ht Hrest]. by constructor.
    + intros H. inversion H; subst. by split.
Qed.

(** X17: after the upload of a document whose pages all extract, the
    statistics line shows the number of words of the extracted text, and
    that number is 0 exactly when every page's text is empty or consists
    of whitespace only. *)
Theorem word_count_zero_iff_blank f pages ts w :
  PdfReader f = Returns pages ->
  Forall2 (fun p t => extract_text p = Returns t) pages ts ->
  exists text,
    fst (extract_text_from_pdf f w) = Ret text
    /\ trace (snd (on_upload f w)) =
       trace w ++
       [ UI (st_spinner "Processing document...");
         Enter_extract_text_from_pdf (name f);
         UI (st_success ("✅ Document '" +:+ name f +:+ "' processed successfully!"));
         UI (st_info ("📊 Document stats: " +:+ str_of_nat (length (split text))
                      +:+ " words, " +:+ str_of_nat (len text) +:+ " characters"));
         UI (st_expander "📖 Document Preview");
         UI (st_text_area "First 500 characters:" (slice_to 500 text)) ]
    /\ (length (split text) = 0 <-> Forall (fun t => blank t = true) ts).
Proof.
  intros Hf Hp. exists (page_lines ts).
  assert (E : extraction f = Returns (page_lines ts)).
  { unfold extraction. by rewrite Hf, (pages_text_lines _ _ _ Hp). }
  split; [by rewrite extract_text_from_pdf_run, E|].
  split; [by rewrite (on_upload_run_ok _ _ _ E)|].
  rewrite <- blank_page_lines, <- split_nil_iff_blank.
  destruct (split (page_lines ts)); simpl; split; done.
Qed.

Lemma word_count_zero_iff_blank_witness :
  exists text,
    fst (extract_text_from_pdf scanned_pdf fresh) = Ret text
    /\ trace (snd (on_upload scanned_pdf fresh)) =
       trace fresh ++
       [ UI (st_spinner "Processing document...");
         Enter_extract_text_from_pdf "scan.pdf";
         UI (st_success ("✅ Document '" +:+ "scan.pdf" +:+ "' processed successfully!"));
         UI (st_info ("📊 Document stats: " +:+ str_of_nat (length (split text))
                      +:+ " words, " +:+ str_of_nat (len text) +:+ " characters"));
         UI (st_expander "📖 Document Preview");
         UI (st_text_area "First 500 characters:" (slice_to 500 text)) ]
    /\ (length (split text) = 0 <-> Forall (fun t => blank t = true) [""; ""; ""]).
Proof.
  apply (word_count_zero_iff_blank scanned_pdf
           [text_page ""; text_page ""; text_page ""] [""; ""; ""] fresh).
  - reflexivity.
  - repeat constructor.
Defined.

(** X18: [get_api_key] writes to the page only when the secrets store
    raises, and then exactly one line, ["Debug: Secrets error: "] followed
    by the exception's message; a store that answers, even with nothing,
    leaves the page alone.  The session is never touched. *)
Theorem get_api_key_diagnostic env w :
  exists evs,
    snd (get_api_key env w) = after w (Enter_get_api_key :: evs)
    /\ (forall e, secrets_getitem env KEY = Throws e ->
          evs = [UI (st_write ("Debug: Secrets error: " +:+ str e))])
    /\ (forall v, secrets_getitem env KEY = Returns v -> evs = []).
Proof.
  exists (secrets_debug env). rewrite get_api_key_run.
  split; [reflexivity|]. unfold secrets_debug.
  split; [intros e -> | intros v ->]; reflexivity.
Qed.

Lemma get_api_key_diagnostic_witness :
  exists evs,
    snd (get_api_key local_env fresh) = after fresh (Enter_get_api_key :: evs)
    /\ evs = [UI (st_write "Debug: Secrets error: No secrets files found.")].
Proof.
  destruct (get_api_key_diagnostic local_env fresh) as (evs & Hrun & Hraise & _).
  exists evs. split; [exact Hrun|].
  apply (Hraise (Exn "FileNotFoundError" "No secrets files found.")). reflexivity.
Defined.
